(** * Quotation app: calculator, record store and exporters

    A shallow embedding of [app.py] and [functions/_worker.py], the two
    entry points of the quotation tool, with the properties of the
    specification proved about it.

    Python floats are IEEE binary64 numbers and are embedded as Rocq's
    primitive floats, whose operations are the same binary64 operations.
    Form fields are strings, the record store is a finite map from primary
    keys to rows, and handlers that can raise return a [result]. What
    the source takes from its libraries and its platform (the parser
    behind [float()], openpyxl, reportlab and the file system, the
    database and its driver) is a parameter of the handlers. *)

From Stdlib Require Import ZArith Floats.PrimFloat Floats.FloatOps Floats.SpecFloat.
From Stdlib Require Import Floats.FloatAxioms.
From Stdlib Require Import Strings.String Strings.Ascii Numbers.DecimalString.
From stdpp Require Import base option list gmap strings sorting.

(** ** Python and werkzeug primitives *)

Module Py.

(** The exceptions the handlers can raise: a missing form key
    ([request.form[k]]), a string [float()] refuses (reportlab raises
    the same class on text it cannot parse), a list index out of range,
    an integer the database driver cannot bind, and, by the name of its
    class, any other exception raised inside a library or by the file
    system ([FileNotFoundError], [IllegalCharacterError], ...). *)
Inductive exn : Type :=
  | BadRequestKeyError (key : string)
  | ValueError
  | IndexError
  | OverflowError
  | Other (class_name : string).

Inductive result (A : Type) : Type :=
  | Ok (a : A)
  | Raise (e : exn).

Arguments Ok {A} a.
Arguments Raise {A} e.

#[global] Instance result_ret : MRet result := λ A, Ok.

#[global] Instance result_bind : MBind result :=
  λ A B f m, match m with Ok a => f a | Raise e => Raise e end.

(** A library call made for its effect: it returns nothing, or raises
    the exception [e]. *)
Definition raising (e : option exn) : result unit :=
  match e with
  | Some e => Raise e
  | None => Ok ()
  end.

(** [request.form]: the key/value pairs of a form-encoded body, in the
    order they were sent; a key may occur several times. *)
Definition form : Type := list (string * string).

(** [request.form.getlist(k)] *)
Definition getlist (k : string) (f : form) : list string :=
  (filter (λ p, p.1 = k) f).*2.

(** [request.form.get(k, default)]: the first value of [k]. *)
Definition get (k : string) (default : string) (f : form) : string :=
  match getlist k f with
  | v :: _ => v
  | [] => default
  end.

(** [request.form[k]] *)
Definition getitem (k : string) (f : form) : result string :=
  match getlist k f with
  | v :: _ => Ok v
  | [] => Raise (BadRequestKeyError k)
  end.

(** [l[i]] on a list, for [i >= 0]. *)
Definition index {A : Type} (l : list A) (i : nat) : result A :=
  match l !! i with
  | Some x => Ok x
  | None => Raise IndexError
  end.

(** [s or d] on strings: the empty string is the only falsy one. *)
Definition or (s d : string) : string :=
  match s with
  | EmptyString => d
  | _ => s
  end.

(** [not s] on a string. *)
Definition not_str (s : string) : bool :=
  match s with
  | EmptyString => true
  | _ => false
  end.

(** The values the handlers hand to the documents: strings, floats, and
    the int [0] that [total_amount] is set to before the loop. *)
Inductive value : Type :=
  | PyStr (s : string)
  | PyFloat (x : PrimFloat.float)
  | PyInt (n : Z).

(** [float(s)], given the builtin's parser [py_float] ([None] where Python
    raises [ValueError]). *)
Definition to_float (py_float : string → option float) (s : string)
    : result float :=
  match py_float s with
  | Some x => Ok x
  | None => Raise ValueError
  end.

End Py.

Import Py.

(** ** Data model *)

(** One computed line item: the dict
    [{'name', 'quantity', 'price', 'amount'}] built by the handlers. *)
Record item : Type := Item {
  name : string;
  quantity : float;
  price : float;
  amount : float
}.

(** The [data] dict handed to [preview.html], after [items] was popped.
    [total_amount] is held as a float: for a form without a named row
    the dict has the int [0], which is [0.0] as a number. *)
Record preview_data : Type := PreviewData {
  pd_company_name : string;
  pd_company_address : string;
  pd_company_phone : string;
  pd_company_email : string;
  pd_quotation_no : string;
  pd_date : string;
  pd_client_name : string;
  pd_client_address : string;
  pd_received : float;
  pd_deposit_info : string;
  pd_total_amount : float;
  pd_balance : float
}.

(** ** Binary64 values by sign *)

Module Binary64.

(** Below zero: a negative infinity or a negative finite nonzero
    value. *)
Definition negative (x : spec_float) : bool :=
  match x with
  | S754_infinity true | S754_finite true _ _ => true
  | _ => false
  end.

(** Infinite or finite nonzero, with sign [s]. *)
Definition signed (s : bool) (x : spec_float) : Prop :=
  match x with
  | S754_infinity s' | S754_finite s' _ _ => s' = s
  | _ => False
  end.

End Binary64.

(** ** Number formatting: [f'{x:,.2f}'] *)

Module Fmt.

(** The decimal digits of a natural number, as characters. *)
Definition digits (n : N) : list ascii :=
  list_ascii_of_string (DecimalString.NilZero.string_of_uint (N.to_uint n)).

(** The [,] option: a comma before every group of three digits, counted
    from the right; the argument holds the digits right to left. *)
Fixpoint group3 (rev_digits : list ascii) : list ascii :=
  match rev_digits with
  | a :: b :: c :: ((_ :: _) as more) =>
    a :: b :: c :: ","%char :: group3 more
  | _ => rev_digits
  end.

Definition digit (n : N) : ascii := ascii_of_N (48 + n).

(** [|x| * 100] rounded to an integer, ties to even, for the finite
    nonzero value [m * 2^e]: the [.2f] conversion is correctly rounded. *)
Definition hundredths (m : positive) (e : Z) : N :=
  match e with
  | Zneg p =>
    let num := (Npos m * 100)%N in
    let den := (2 ^ Npos p)%N in
    let q := (num / den)%N in
    let r := (num mod den)%N in
    match (2 * r ?= den)%N with
    | Lt => q
    | Gt => (q + 1)%N
    | Eq => if N.even q then q else (q + 1)%N
    end
  | _ => (Npos m * 2 ^ Z.to_N e * 100)%N
  end.

(** The text of a non-negative count of hundredths: [1234550] is
    [12,345.50]. *)
Definition fixed2 (h : N) : string :=
  string_of_list_ascii
    (rev (group3 (rev (digits (h / 100))))
     ++ ["."%char; digit (h mod 100 / 10); digit (h mod 10)]).

Definition sign_prefix (s : bool) : string := if s then "-" else "".

(** [format(x, ',.2f')] *)
Definition format_comma_2f (x : float) : string :=
  match Prim2SF x with
  | S754_nan => "nan"
  | S754_infinity s => sign_prefix s +:+ "inf"
  | S754_zero s => sign_prefix s +:+ "0.00"
  | S754_finite s m e => sign_prefix s +:+ fixed2 (hundredths m e)
  end.

(** A number: neither an infinity nor NaN. *)
Definition finite (x : float) : bool :=
  match Prim2SF x with
  | S754_zero _ | S754_finite _ _ _ => true
  | _ => false
  end.

Definition is_digit (c : ascii) : bool :=
  ((48 <=? N_of_ascii c) && (N_of_ascii c <=? 57))%N.

(** What may follow the leading digits of a number with two decimals and
    thousands separators: groups of a comma and three digits, then a
    dot and two digits. *)
Fixpoint groups (l : list ascii) : bool :=
  match l with
  | c :: a :: b :: rest =>
    if Ascii.eqb c ","%char then
      match rest with
      | d :: rest' =>
        is_digit a && is_digit b && is_digit d && groups rest'
      | [] => false
      end
    else
      Ascii.eqb c "."%char && is_digit a && is_digit b
      && match rest with [] => true | _ => false end
  | _ => false
  end.

(** One to three leading digits, then [groups]. *)
Definition lead (l : list ascii) : bool :=
  match l with
  | a :: l1 =>
    is_digit a
    && (groups l1
        || match l1 with
           | b :: l2 =>
             is_digit b
             && (groups l2
                 || match l2 with
                    | c :: l3 => is_digit c && groups l3
                    | [] => false
                    end)
           | [] => false
           end)
  | [] => false
  end.

(** The texts [d.dd], [dd.dd], [ddd.dd], [d,ddd.dd], ... with an
    optional minus sign before them. *)
Definition two_decimals_grouped (s : string) : bool :=
  match list_ascii_of_string s with
  | c :: l => if Ascii.eqb c "-"%char then lead l else lead (c :: l)
  | [] => false
  end.

End Fmt.

Import Fmt.

(** ** Documents: openpyxl worksheets and reportlab stories *)

Module Xlsx.

(** The value a handler gives a cell: none, a string, a float or an
    int. A number is written to the file as a number; no number format
    is set anywhere in the source, so it keeps the General format. Of a
    string openpyxl keeps the first 32,767 characters, and it refuses
    one that holds a control character: that, like every other way the
    library can fail, is in the handlers' parameter [save_workbook]. *)
Inductive cell_value : Type :=
  | Empty
  | Text (s : string)
  | Number (x : float)
  | Integer (n : Z).

(** A worksheet: its cells by (row, column), both counted from 1, and
    the [_current_row] counter [append] goes by. Fonts, fills, borders,
    alignment, merged ranges and column widths carry no value and are
    left out. *)
Record worksheet : Type := Worksheet {
  cells : gmap (nat * nat) cell_value;
  current_row : nat
}.

(** [Workbook().active] *)
Definition new_sheet : worksheet := Worksheet ∅ 0.

(** [ws.cell(r, c)] or [ws['A1']] read for its style: the cell is
    created, empty, when it is not there yet. *)
Definition touch (r c : nat) (ws : worksheet) : worksheet :=
  match cells ws !! (r, c) with
  | Some _ => ws
  | None => Worksheet (<[(r, c) := Empty]> (cells ws)) (r `max` current_row ws)
  end.

(** [ws.cell(r, c, v)] or [ws['A1'] = v] *)
Definition set_cell (r c : nat) (v : cell_value) (ws : worksheet) : worksheet :=
  let ws' := touch r c ws in
  Worksheet (<[(r, c) := v]> (cells ws')) (current_row ws').

(** A row's values written into row [r] from column [c] on. *)
Fixpoint put_row (r c : nat) (vs : list cell_value)
    (m : gmap (nat * nat) cell_value) : gmap (nat * nat) cell_value :=
  match vs with
  | [] => m
  | v :: vs' => put_row r (S c) vs' (<[(r, c) := v]> m)
  end.

(** [ws.append(vs)]: the row after [_current_row]. *)
Definition append (vs : list cell_value) (ws : worksheet) : worksheet :=
  let r := S (current_row ws) in
  Worksheet (put_row r 1 vs (cells ws)) r.

(** [ws.max_row] *)
Definition max_row (ws : worksheet) : nat :=
  if decide (cells ws = ∅) then 1
  else map_fold (λ k _ acc, k.1 `max` acc) 0 (cells ws).

(** The value at (row, column); [Empty] where there is no cell. *)
Definition value_at (r c : nat) (ws : worksheet) : cell_value :=
  default Empty (cells ws !! (r, c)).

(** The cell value of a Python string, float or int. *)
Definition of_value (v : Py.value) : cell_value :=
  match v with
  | PyStr s => Text s
  | PyFloat x => Number x
  | PyInt n => Integer n
  end.

End Xlsx.

Module Pdf.

(** A table cell: a string, a float or an int (reportlab draws [str(x)]
    of a number: [45.0] for the float, [0] for the int), or the
    paragraph [Paragraph(str(v), styles[style])]; [str] of a string is
    the string. *)
Inductive cell : Type :=
  | Str (s : string)
  | Num (x : float)
  | Int (n : Z)
  | Para (v : Py.value) (style : string).

(** The table cell of a Python string, float or int. *)
Definition of_value (v : Py.value) : cell :=
  match v with
  | PyStr s => Str s
  | PyFloat x => Num x
  | PyInt n => Int n
  end.

(** The flowables the source uses; sizes, column widths and table styles
    are left out. reportlab parses the text of a [Paragraph] as markup
    when the paragraph is made and lays the story out when the document
    is built; what it raises there is in the handlers' parameter
    [build_pdf]. *)
Inductive flowable : Type :=
  | Paragraph (text style : string)
  | Spacer
  | Table (data : list (list cell)).

End Pdf.

(** What [create_files] leaves behind when it returns: the two file
    names it hands to [result.html] and the documents saved under
    them. *)
Record generated : Type := Generated {
  excel_file : string;
  excel_doc : Xlsx.worksheet;
  pdf_file : string;
  pdf_doc : list Pdf.flowable
}.

(** ** The form-submission handlers of [app.py] *)

Module App.

Section Handlers.

(** The parser behind [float()]: [None] where Python raises
    [ValueError]. *)
Variable py_float : string → option float.

(** openpyxl and the file system: the exception raised while the values
    of the sheet are bound to its cells and the workbook is saved under
    the file name in the output directory, if one is ([None] when the
    file is written). *)
Variable save_workbook : string → Xlsx.worksheet → option exn.

(** reportlab and the file system: the exception raised while the
    paragraphs of the story are parsed and the document is built into
    the file of that name in the output directory, if one is. *)
Variable build_pdf : string → list Pdf.flowable → option exn.

(** The body of [for i in range(len(item_names))] in [generate], run over
    the indices [idxs] still to visit, with the accumulators [items] and
    [total_amount]. The accumulator is held as a float: it starts as the
    int [0], which is [0.0] as a number, and the first [+=] makes it the
    float [0 + amount]. It is still the int when the loop ends without a
    [+=]; [total_value] below says where that shows. *)
Fixpoint generate_loop (item_names quantities prices : list string)
    (idxs : list nat) (items : list item) (total_amount : float)
    : result (list item * float) :=
  match idxs with
  | [] => Ok (items, total_amount)
  | i :: idxs' =>
    n ← index item_names i;
    if not_str n then
      generate_loop item_names quantities prices idxs' items total_amount
    else
      qs ← index quantities i;
      quantity ← to_float py_float qs;
      ps ← index prices i;
      price ← to_float py_float ps;
      let amount := (quantity * price)%float in
      generate_loop item_names quantities prices idxs'
        (items ++ [Item n quantity price amount])
        (total_amount + amount)%float
  end.

(** [POST /generate]: the context passed to [preview.html]. *)
Definition generate (f : form) : result (preview_data * list item) :=
  company_name ← getitem "company_name" f;
  company_address ← getitem "company_address" f;
  company_phone ← getitem "company_phone" f;
  company_email ← getitem "company_email" f;
  quotation_no ← getitem "quotation_no" f;
  date ← getitem "date" f;
  client_name ← getitem "client_name" f;
  client_address ← getitem "client_address" f;
  received ← to_float py_float (Py.or (get "received" "0" f) "0");
  let deposit_info := get "deposit_info" "" f in
  let item_names := getlist "item_name[]" f in
  let quantities := getlist "quantity[]" f in
  let prices := getlist "price[]" f in
  '(items, total_amount) ←
    generate_loop item_names quantities prices
      (seq 0 (length item_names)) [] 0%float;
  let balance := (total_amount - received)%float in
  Ok (PreviewData company_name company_address company_phone company_email
        quotation_no date client_name client_address received deposit_info
        total_amount balance, items).

(** The body of the same loop in [create_files]. *)
Fixpoint create_files_loop (item_names quantities prices : list string)
    (idxs : list nat) (items : list item) (total_amount : float)
    : result (list item * float) :=
  match idxs with
  | [] => Ok (items, total_amount)
  | i :: idxs' =>
    n ← index item_names i;
    if not_str n then
      create_files_loop item_names quantities prices idxs' items total_amount
    else
      qs ← index quantities i;
      quantity ← to_float py_float qs;
      ps ← index prices i;
      price ← to_float py_float ps;
      let amount := (quantity * price)%float in
      create_files_loop item_names quantities prices idxs'
        (items ++ [Item n quantity price amount])
        (total_amount + amount)%float
  end.

(** [for item in items] of [generate_excel]: one row per item, from
    [row] on; the row after the last one is returned with the sheet. *)
Fixpoint excel_items (items : list item) (row : nat) (ws : Xlsx.worksheet)
    : Xlsx.worksheet * nat :=
  match items with
  | [] => (ws, row)
  | it :: items' =>
    let ws := Xlsx.set_cell row 1 (Xlsx.Text (name it)) ws in
    let ws := Xlsx.set_cell row 2 (Xlsx.Number (quantity it)) ws in
    let ws := Xlsx.set_cell row 3 (Xlsx.Number (price it)) ws in
    let ws := Xlsx.set_cell row 4 (Xlsx.Number (amount it)) ws in
    let ws := foldl (λ w col, Xlsx.touch row col w) ws [1; 2; 3; 4] in
    excel_items items' (S row) ws
  end.

(** [total_amount] after the loop, as the Python value the handler
    holds: the int [0] it was set to when [+=] never ran, which is when
    no row had a name and [items] is empty, else the float the loop
    added up. *)
Definition total_value (items : list item) (total_amount : float) : Py.value :=
  match items with
  | [] => PyInt 0
  | _ :: _ => PyFloat total_amount
  end.

(** [generate_excel]: the file name and the sheet saved under it, when
    openpyxl and the file system raise nothing. *)
Definition generate_excel
    (company_name company_address company_phone company_email quotation_no
     date client_name client_address : string) (items : list item)
    (total_amount : Py.value) (received balance : float)
    (deposit_info : string) : result (string * Xlsx.worksheet) :=
  let ws := Xlsx.new_sheet in
  (* Company Info *)
  let ws := Xlsx.set_cell 1 1 (Xlsx.Text company_name) ws in
  let ws := Xlsx.set_cell 2 1 (Xlsx.Text company_address) ws in
  let ws := Xlsx.set_cell 3 1
    (Xlsx.Text ("Tel: " +:+ company_phone +:+ " Email: " +:+ company_email)) ws in
  (* Quotation Title *)
  let ws := Xlsx.set_cell 4 1 (Xlsx.Text "報價單") ws in
  (* Client Info *)
  let ws := Xlsx.set_cell 6 1 (Xlsx.Text "客戶名稱:") ws in
  let ws := Xlsx.set_cell 6 2 (Xlsx.Text client_name) ws in
  let ws := Xlsx.set_cell 6 4 (Xlsx.Text "報價單號碼:") ws in
  let ws := Xlsx.set_cell 6 5 (Xlsx.Text quotation_no) ws in
  let ws := Xlsx.set_cell 7 1 (Xlsx.Text "客戶地址:") ws in
  let ws := Xlsx.set_cell 7 2 (Xlsx.Text client_address) ws in
  let ws := Xlsx.set_cell 7 4 (Xlsx.Text "日期:") ws in
  let ws := Xlsx.set_cell 7 5 (Xlsx.Text date) ws in
  (* Table Header *)
  let ws := Xlsx.append
    [Xlsx.Text "項目"; Xlsx.Text "數量"; Xlsx.Text "單價"; Xlsx.Text "金額"] ws in
  let ws := foldl (λ w col, Xlsx.touch 9 col w) ws [1; 2; 3; 4; 5] in
  (* Items *)
  let '(ws, row) := excel_items items 10 ws in
  (* Total *)
  let ws := Xlsx.set_cell row 3 (Xlsx.Text "總計:") ws in
  let ws := Xlsx.set_cell row 4 (Xlsx.of_value total_amount) ws in
  let row := S row in
  let ws := Xlsx.set_cell row 3 (Xlsx.Text "已收訂金:") ws in
  let ws := Xlsx.set_cell row 4 (Xlsx.Number received) ws in
  let row := S row in
  let ws := Xlsx.set_cell row 3 (Xlsx.Text "餘額:") ws in
  let ws := Xlsx.set_cell row 4 (Xlsx.Number balance) ws in
  (* Deposit Info *)
  let row := row + 2 in
  let ws := Xlsx.set_cell row 1 (Xlsx.Text ("訂金資訊: " +:+ deposit_info)) ws in
  (* Save file *)
  let filename := "Quotation_" +:+ quotation_no +:+ ".xlsx" in
  _ ← raising (save_workbook filename ws);
  Ok (filename, ws).

(** [generate_pdf]: the file name and the story built into it, when
    reportlab and the file system raise nothing. *)
Definition generate_pdf
    (company_name company_address company_phone company_email quotation_no
     date client_name client_address : string) (items : list item)
    (total_amount : Py.value) (received balance : float)
    (deposit_info : string) : result (string * list Pdf.flowable) :=
  let filename := "Quotation_" +:+ quotation_no +:+ ".pdf" in
  let client_info_data :=
    [ [Pdf.Str ("客戶名稱: " +:+ client_name);
       Pdf.Str ("報價單號碼: " +:+ quotation_no)];
      [Pdf.Str ("客戶地址: " +:+ client_address);
       Pdf.Str ("日期: " +:+ date)] ] in
  let item_data :=
    [Pdf.Str "項目"; Pdf.Str "數量"; Pdf.Str "單價"; Pdf.Str "金額"]
    :: map (λ it, [Pdf.Str (name it); Pdf.Num (quantity it);
                   Pdf.Num (price it); Pdf.Num (amount it)]) items in
  let total_data :=
    [ [Pdf.Str ""; Pdf.Str ""; Pdf.Str "總計:"; Pdf.of_value total_amount];
      [Pdf.Str ""; Pdf.Str ""; Pdf.Str "已收訂金:"; Pdf.Num received];
      [Pdf.Str ""; Pdf.Str ""; Pdf.Str "餘額:"; Pdf.Num balance] ] in
  let elements :=
   [ Pdf.Paragraph company_name "SimSunTitle";
     Pdf.Paragraph company_address "SimSunBold";
     Pdf.Paragraph ("Tel: " +:+ company_phone +:+ " Email: " +:+ company_email)
       "SimSunBold";
     Pdf.Spacer;
     Pdf.Paragraph "報價單" "SimSunTitle";
     Pdf.Spacer;
     Pdf.Table client_info_data;
     Pdf.Spacer;
     Pdf.Table item_data;
     Pdf.Table total_data;
     Pdf.Spacer;
     Pdf.Paragraph ("訂金資訊: " +:+ deposit_info) "SimSun" ] in
  _ ← raising (build_pdf filename elements);
  Ok (filename, elements).

(** [POST /create_files]: the spreadsheet is written first, then the
    PDF; an exception of either exporter ends the request. *)
Definition create_files (f : form) : result generated :=
  company_name ← getitem "company_name" f;
  company_address ← getitem "company_address" f;
  company_phone ← getitem "company_phone" f;
  company_email ← getitem "company_email" f;
  quotation_no ← getitem "quotation_no" f;
  date ← getitem "date" f;
  client_name ← getitem "client_name" f;
  client_address ← getitem "client_address" f;
  received ← to_float py_float (Py.or (get "received" "0" f) "0");
  let deposit_info := get "deposit_info" "" f in
  let item_names := getlist "item_name[]" f in
  let quantities := getlist "quantity[]" f in
  let prices := getlist "price[]" f in
  '(items, total_amount) ←
    create_files_loop item_names quantities prices
      (seq 0 (length item_names)) [] 0%float;
  let balance := (total_amount - received)%float in
  let total_amount := total_value items total_amount in
  (* Generate Excel and PDF *)
  '(excel_filename, wb) ←
    generate_excel company_name company_address company_phone company_email
      quotation_no date client_name client_address items total_amount
      received balance deposit_info;
  '(pdf_filename, doc) ←
    generate_pdf company_name company_address company_phone company_email
      quotation_no date client_name client_address items total_amount
      received balance deposit_info;
  Ok (Generated excel_filename wb pdf_filename doc).

End Handlers.

End App.


(** ** The form-submission handlers of [functions/_worker.py] *)

Module Worker.

Section Handlers.

(** The parameters of [App]: the parser behind [float()], and what
    openpyxl, reportlab and the file system raise. *)
Variable py_float : string → option float.
Variable save_workbook : string → Xlsx.worksheet → option exn.
Variable build_pdf : string → list Pdf.flowable → option exn.

(** The loop of [generate]; the accumulator is a float as in [app.py]. *)
Fixpoint generate_loop (item_names quantities prices : list string)
    (idxs : list nat) (items : list item) (total_amount : float)
    : result (list item * float) :=
  match idxs with
  | [] => Ok (items, total_amount)
  | i :: idxs' =>
    n ← index item_names i;
    if not_str n then
      generate_loop item_names quantities prices idxs' items total_amount
    else
      qs ← index quantities i;
      quantity ← to_float py_float qs;
      ps ← index prices i;
      price ← to_float py_float ps;
      let amount := (quantity * price)%float in
      generate_loop item_names quantities prices idxs'
        (items ++ [Item n quantity price amount])
        (total_amount + amount)%float
  end.

(** [POST /generate] *)
Definition generate (f : form) : result (preview_data * list item) :=
  company_name ← getitem "company_name" f;
  company_address ← getitem "company_address" f;
  company_phone ← getitem "company_phone" f;
  company_email ← getitem "company_email" f;
  quotation_no ← getitem "quotation_no" f;
  date ← getitem "date" f;
  client_name ← getitem "client_name" f;
  client_address ← getitem "client_address" f;
  received ← to_float py_float (Py.or (get "received" "0" f) "0");
  let deposit_info := get "deposit_info" "" f in
  let item_names := getlist "item_name[]" f in
  let quantities := getlist "quantity[]" f in
  let prices := getlist "price[]" f in
  '(items, total_amount) ←
    generate_loop item_names quantities prices
      (seq 0 (length item_names)) [] 0%float;
  let balance := (total_amount - received)%float in
  Ok (PreviewData company_name company_address company_phone company_email
        quotation_no date client_name client_address received deposit_info
        total_amount balance, items).

(** The loop of [create_files]: each row of [items_data] is the list
    [[name, quantity, f'{price:,.2f}', f'{amount:,.2f}']]. *)
Fixpoint create_files_loop (item_names quantities prices : list string)
    (idxs : list nat) (items_data : list (list Py.value))
    (total_amount : float) : result (list (list Py.value) * float) :=
  match idxs with
  | [] => Ok (items_data, total_amount)
  | i :: idxs' =>
    n ← index item_names i;
    if not_str n then
      create_files_loop item_names quantities prices idxs' items_data
        total_amount
    else
      qs ← index quantities i;
      quantity ← to_float py_float qs;
      ps ← index prices i;
      price ← to_float py_float ps;
      let amount := (quantity * price)%float in
      create_files_loop item_names quantities prices idxs'
        (items_data ++ [[PyStr n; PyFloat quantity;
                         PyStr (format_comma_2f price);
                         PyStr (format_comma_2f amount)]])
        (total_amount + amount)%float
  end.

(** [POST /create_files]: both documents are built in the handler, the
    spreadsheet first. The total is used through [f'{total_amount:,.2f}']
    and [total_amount - received] only, which give the same for the int
    [0] of a loop without a [+=] as for the float [0.0]. *)
Definition create_files (f : form) : result generated :=
  company_name ← getitem "company_name" f;
  company_address ← getitem "company_address" f;
  company_phone ← getitem "company_phone" f;
  company_email ← getitem "company_email" f;
  quotation_no ← getitem "quotation_no" f;
  date ← getitem "date" f;
  client_name ← getitem "client_name" f;
  client_address ← getitem "client_address" f;
  received ← to_float py_float (Py.or (get "received" "0" f) "0");
  let deposit_info := get "deposit_info" "" f in
  let item_names := getlist "item_name[]" f in
  let quantities := getlist "quantity[]" f in
  let prices := getlist "price[]" f in
  '(items_data, total_amount) ←
    create_files_loop item_names quantities prices
      (seq 0 (length item_names)) [] 0%float;
  (* Generate Excel *)
  let ws := Xlsx.new_sheet in
  let ws := Xlsx.set_cell 1 1 (Xlsx.Text "Quotation") ws in
  let ws := Xlsx.set_cell 3 1 (Xlsx.Text company_name) ws in
  let ws := Xlsx.set_cell 4 1 (Xlsx.Text company_address) ws in
  let ws := Xlsx.set_cell 5 1 (Xlsx.Text company_phone) ws in
  let ws := Xlsx.set_cell 6 1 (Xlsx.Text company_email) ws in
  let ws :=
    foldl (λ w col, foldl (λ w row, Xlsx.touch row col w) w [3; 4; 5; 6])
      ws [3; 4] in
  let ws := Xlsx.set_cell 3 3 (Xlsx.Text "Quotation No:") ws in
  let ws := Xlsx.set_cell 3 4 (Xlsx.Text quotation_no) ws in
  let ws := Xlsx.set_cell 4 3 (Xlsx.Text "Date:") ws in
  let ws := Xlsx.set_cell 4 4 (Xlsx.Text date) ws in
  let ws := Xlsx.set_cell 5 3 (Xlsx.Text "To:") ws in
  let ws := Xlsx.set_cell 5 4 (Xlsx.Text client_name) ws in
  let ws := Xlsx.set_cell 6 3 (Xlsx.Text "Address:") ws in
  let ws := Xlsx.set_cell 6 4 (Xlsx.Text client_address) ws in
  let headers := ["Items"; "Units"; "Cost Per Unit"; "Amount"] in
  let ws := Xlsx.append [] ws in
  let ws := Xlsx.append (Xlsx.Text <$> headers) ws in
  let ws :=
    foldl (λ w col_num, Xlsx.touch (Xlsx.max_row w) col_num w) ws
      [1; 2; 3; 4] in
  let ws :=
    foldl (λ w item, Xlsx.append (Xlsx.of_value <$> item) w) ws items_data in
  let balance := (total_amount - received)%float in
  let summary_start_row := Xlsx.max_row ws + 1 in
  let ws := Xlsx.set_cell summary_start_row 3 (Xlsx.Text "TOTAL") ws in
  let ws := Xlsx.set_cell summary_start_row 4
    (Xlsx.Text (format_comma_2f total_amount)) ws in
  let ws := Xlsx.set_cell (summary_start_row + 1) 3 (Xlsx.Text "Received") ws in
  let ws := Xlsx.set_cell (summary_start_row + 1) 4
    (Xlsx.Text ("(" +:+ format_comma_2f received +:+ ")")) ws in
  let ws := Xlsx.set_cell (summary_start_row + 2) 3 (Xlsx.Text "Balance") ws in
  let ws := Xlsx.set_cell (summary_start_row + 2) 4
    (Xlsx.Text (format_comma_2f balance)) ws in
  let ws := Xlsx.set_cell (summary_start_row + 4) 1 (Xlsx.Text deposit_info) ws in
  _ ← raising (save_workbook "Quotation.xlsx" ws);
  (* Generate PDF *)
  let header_data :=
    [ [Pdf.Para (PyStr "<b>Quotation</b>") "SimSunTitle"; Pdf.Str "";
       Pdf.Para (PyStr ("Quotation No: " +:+ quotation_no)) "SimSun"; Pdf.Str ""];
      [Pdf.Para (PyStr company_name) "SimSunBold"; Pdf.Str "";
       Pdf.Para (PyStr ("Date: " +:+ date)) "SimSun"; Pdf.Str ""];
      [Pdf.Para (PyStr company_address) "SimSun"; Pdf.Str "";
       Pdf.Para (PyStr ("To: " +:+ client_name)) "SimSun"; Pdf.Str ""];
      [Pdf.Para (PyStr company_phone) "SimSun"; Pdf.Str "";
       Pdf.Para (PyStr ("Address: " +:+ client_address)) "SimSun"; Pdf.Str ""];
      [Pdf.Para (PyStr company_email) "SimSun"; Pdf.Str ""; Pdf.Str ""; Pdf.Str ""] ] in
  let items_header := map (λ h, Pdf.Para (PyStr h) "SimSunBold") headers in
  let items_list :=
    [items_header]
    ++ map (λ row, map (λ col, Pdf.Para col "SimSun") row) items_data in
  let balance := (total_amount - received)%float in
  let summary_data :=
    [ [Pdf.Str ""; Pdf.Str "TOTAL"; Pdf.Str (format_comma_2f total_amount)];
      [Pdf.Str ""; Pdf.Str "Received";
       Pdf.Str ("(" +:+ format_comma_2f received +:+ ")")];
      [Pdf.Str ""; Pdf.Str "Balance"; Pdf.Str (format_comma_2f balance)] ] in
  let story :=
    [ Pdf.Table header_data;
      Pdf.Spacer;
      Pdf.Table items_list;
      Pdf.Table summary_data;
      Pdf.Spacer;
      Pdf.Paragraph deposit_info "SimSun";
      Pdf.Spacer;
      Pdf.Paragraph "Thank you for your business!" "SimSunRight" ] in
  _ ← raising (build_pdf "Quotation.pdf" story);
  Ok (Generated "Quotation.xlsx" ws "Quotation.pdf" story).

End Handlers.

End Worker.

(** ** The record store routes

    [app.py] and [functions/_worker.py] define the four routes with the
    same text, so they are embedded once. *)

Module Records.

(** A row of the [quotation] table without its primary key, which is the
    key of the table map. Every column is nullable. *)
Record Quotation : Type := Row {
  company_name : option string;
  company_address : option string;
  company_phone : option string;
  company_email : option string;
  client_name : option string;
  client_address : option string;
  quotation_no : option string;
  date : option string;
  items : option string;
  received : option float;
  deposit_info : option string
}.

(** [Quotation()]: a new object, no column set. *)
Definition new_Quotation : Quotation :=
  Row None None None None None None None None None None None.

(** [to_dict]: the dict of the id and the eleven columns. *)
Definition to_dict (id : Z) (self : Quotation) : Z * Quotation := (id, self).

(** The JSON bodies the routes answer with, and Flask's answer to an
    exception that no route catches: the page of status 500. *)
Inductive reply : Type :=
  | Dicts (l : list (Z * Quotation))
  | Dict (d : Z * Quotation)
  | Saved (id : Z) (message : string)
  | Failure (message : string)
  | Success
  | Error (message : string)
  | ServerError (e : exn).

(** [if x:] on the value of [data.get('id')]: [None] when the key is
    absent or null, else the integer sent. *)
Definition truthy (x : option Z) : bool :=
  match x with
  | Some i => negb (i =? 0)%Z
  | None => false
  end.

Section Routes.

(** JSON values as [request.get_json()] returns them, [json.dumps], and
    the empty list. *)
Variable json : Type.
Variable dumps : json → string.
Variable empty_list : json.

(** The integers the database driver binds as a value of the key column.
    On SQLite, the default database, these are the signed 64-bit
    integers; [sqlite3] raises [OverflowError] on any other. *)
Variable bindable : Z → bool.

(** The body of [POST /api/save_quotation]. For the id and the ten
    columns, [None] is what [data.get] returns for a key that is absent
    or null; for [items], [None] is the absent key, which
    [data.get('items', [])] turns into the empty list, and a null is a
    JSON value like any other. The id is an integer, as a client got it
    from an earlier save or a listing, or any other one; text fields are
    strings and [received] a number that the database stores as it is. *)
Record body : Type := Body {
  b_id : option Z;
  b_company_name : option string;
  b_company_address : option string;
  b_company_phone : option string;
  b_company_email : option string;
  b_client_name : option string;
  b_client_address : option string;
  b_quotation_no : option string;
  b_date : option string;
  b_received : option float;
  b_deposit_info : option string;
  b_items : option json
}.

(** The eleven assignments [quotation.<column> = ...] of
    [save_quotation]. *)
Definition assign (data : body) (items_json : string) (quotation : Quotation)
    : Quotation :=
  let quotation := Row (b_company_name data) (company_address quotation)
    (company_phone quotation) (company_email quotation)
    (client_name quotation) (client_address quotation)
    (quotation_no quotation) (date quotation) (items quotation)
    (received quotation) (deposit_info quotation) in
  let quotation := Row (company_name quotation) (b_company_address data)
    (company_phone quotation) (company_email quotation)
    (client_name quotation) (client_address quotation)
    (quotation_no quotation) (date quotation) (items quotation)
    (received quotation) (deposit_info quotation) in
  let quotation := Row (company_name quotation) (company_address quotation)
    (b_company_phone data) (company_email quotation)
    (client_name quotation) (client_address quotation)
    (quotation_no quotation) (date quotation) (items quotation)
    (received quotation) (deposit_info quotation) in
  let quotation := Row (company_name quotation) (company_address quotation)
    (company_phone quotation) (b_company_email data)
    (client_name quotation) (client_address quotation)
    (quotation_no quotation) (date quotation) (items quotation)
    (received quotation) (deposit_info quotation) in
  let quotation := Row (company_name quotation) (company_address quotation)
    (company_phone quotation) (company_email quotation)
    (b_client_name data) (client_address quotation)
    (quotation_no quotation) (date quotation) (items quotation)
    (received quotation) (deposit_info quotation) in
  let quotation := Row (company_name quotation) (company_address quotation)
    (company_phone quotation) (company_email quotation)
    (client_name quotation) (b_client_address data)
    (quotation_no quotation) (date quotation) (items quotation)
    (received quotation) (deposit_info quotation) in
  let quotation := Row (company_name quotation) (company_address quotation)
    (company_phone quotation) (company_email quotation)
    (client_name quotation) (client_address quotation)
    (b_quotation_no data) (date quotation) (items quotation)
    (received quotation) (deposit_info quotation) in
  let quotation := Row (company_name quotation) (company_address quotation)
    (company_phone quotation) (company_email quotation)
    (client_name quotation) (client_address quotation)
    (quotation_no quotation) (b_date data) (items quotation)
    (received quotation) (deposit_info quotation) in
  let quotation := Row (company_name quotation) (company_address quotation)
    (company_phone quotation) (company_email quotation)
    (client_name quotation) (client_address quotation)
    (quotation_no quotation) (date quotation) (items quotation)
    (b_received data) (deposit_info quotation) in
  let quotation := Row (company_name quotation) (company_address quotation)
    (company_phone quotation) (company_email quotation)
    (client_name quotation) (client_address quotation)
    (quotation_no quotation) (date quotation) (items quotation)
    (received quotation) (b_deposit_info data) in
  Row (company_name quotation) (company_address quotation)
    (company_phone quotation) (company_email quotation)
    (client_name quotation) (client_address quotation)
    (quotation_no quotation) (date quotation) (Some items_json)
    (received quotation) (deposit_info quotation).

(** [Quotation.query.get(id)] on the table [db]: the row under the key
    [id], or [None]. The driver binds [id] as the parameter of a SELECT
    and raises on an integer it cannot bind. A table holds rows under
    keys the database stores only, and those it binds: the row of a key
    that is in the table is found, and the lookup of a key that is not
    raises when the key cannot be bound. *)
Definition query_get (id : Z) (db : gmap Z Quotation)
    : result (option Quotation) :=
  match db !! id with
  | Some quotation => Ok (Some quotation)
  | None => if bindable id then Ok None else Raise OverflowError
  end.

(** [POST /api/save_quotation] on the table [db]. [new_id] is the primary
    key the database gives a row added by [db.session.add]; it is read
    only on that path. The answer is the JSON body and the status; an
    exception of the lookup ends the request with status 500 and the
    table as it was. *)
Definition save_quotation (new_id : Z) (db : gmap Z Quotation) (data : body)
    : (reply * nat) * gmap Z Quotation :=
  let quotation_id := b_id data in
  let items_json := dumps (default empty_list (b_items data)) in
  if truthy quotation_id then
    (* Update existing quotation *)
    let id := default 0%Z quotation_id in
    match query_get id db with
    | Raise e => ((ServerError e, 500), db)
    | Ok None => ((Failure "Quotation not found", 404), db)
    | Ok (Some quotation) =>
      let quotation := assign data items_json quotation in
      ((Saved id "Quotation saved successfully", 200), <[id := quotation]> db)
    end
  else
    (* Create new quotation *)
    let quotation := assign data items_json new_Quotation in
    ((Saved new_id "Quotation saved successfully", 200),
     <[new_id := quotation]> db).

(** [GET /api/get_quotation/<int:id>]; the route passes the integers
    written with digits only, of any size. *)
Definition get_quotation (id : Z) (db : gmap Z Quotation) : reply * nat :=
  match query_get id db with
  | Raise e => (ServerError e, 500)
  | Ok (Some quotation) => (Dict (to_dict id quotation), 200)
  | Ok None => (Error "Quotation not found", 404)
  end.

(** [DELETE /api/delete_quotation/<int:id>] *)
Definition delete_quotation (id : Z) (db : gmap Z Quotation)
    : (reply * nat) * gmap Z Quotation :=
  match query_get id db with
  | Raise e => ((ServerError e, 500), db)
  | Ok (Some quotation) => ((Success, 200), delete id db)
  | Ok None => ((Error "Quotation not found", 404), db)
  end.

(** The row a body describes: each column is the body's field of the
    same name, and [items] is the dumped list. *)
Definition row_of_body (data : body) : Quotation :=
  Row (b_company_name data) (b_company_address data) (b_company_phone data)
    (b_company_email data) (b_client_name data) (b_client_address data)
    (b_quotation_no data) (b_date data)
    (Some (dumps (default empty_list (b_items data))))
    (b_received data) (b_deposit_info data).

(** The tables the routes lead to from the empty table that
    [db.create_all()] makes, the database giving each new row a positive
    key that is not in use. *)
Inductive reachable : gmap Z Quotation → Prop :=
  | reachable_empty : reachable ∅
  | reachable_save db new_id data :
      reachable db → db !! new_id = None → (0 < new_id)%Z →
      reachable (save_quotation new_id db data).2
  | reachable_delete db id :
      reachable db → reachable (delete_quotation id db).2.

(** The order of the [date] column in the database, on nullable text. *)
Variable date_le : relation (option string).
Context `{!RelDecision date_le}.

(** [Quotation.date.desc()]: a row comes before the rows whose date is
    not above its own. *)
Definition date_desc (x y : Z * Quotation) : Prop :=
  date_le (date y.2) (date x.2).

#[global] Instance date_desc_dec : RelDecision date_desc :=
  λ x y, decide_rel date_le (date y.2) (date x.2).

(** [GET /api/quotations] *)
Definition get_quotations (db : gmap Z Quotation) : reply * nat :=
  let quotations := merge_sort date_desc (map_to_list db) in
  (Dicts (map (λ q, to_dict q.1 q.2) quotations), 200).

End Routes.

End Records.

(** ** The calculator as the specification words it *)

Module Spec.

(** A sum of floats, taken from [0] in list order. *)
Definition fsum (xs : list float) : float := foldl PrimFloat.add 0%float xs.

(** The positions of the rows whose name is not empty. *)
Definition named_rows (item_names : list string) : list nat :=
  filter (λ i, item_names !! i ≠ Some EmptyString)
    (seq 0 (length item_names)).

Section Calc.

Variable py_float : string → option float.

(** The item of row [i]: its name, its quantity and price read as
    floats, and amount = quantity × price. *)
Definition row_item (item_names quantities prices : list string) (i : nat)
    : option item :=
  n ← item_names !! i;
  qs ← quantities !! i;
  q ← py_float qs;
  ps ← prices !! i;
  p ← py_float ps;
  Some (Item n q p (q * p)%float).

(** [items] are the items of the rows with a name, in row order, and
    [total_amount] is the sum of their quantity × price. *)
Definition calculated (f : form) (items : list item) (total_amount : float)
    : Prop :=
  Forall2
    (λ i it,
       row_item (getlist "item_name[]" f) (getlist "quantity[]" f)
         (getlist "price[]" f) i = Some it)
    (named_rows (getlist "item_name[]" f)) items
  ∧ total_amount = fsum ((λ it, (quantity it * price it)%float) <$> items).

(** Every row with a name has a quantity and a price that [float()]
    reads. *)
Definition rows_readable (f : form) : Prop :=
  ∀ i, i ∈ named_rows (getlist "item_name[]" f) →
    is_Some (row_item (getlist "item_name[]" f) (getlist "quantity[]" f)
               (getlist "price[]" f) i).

End Calc.

(** The eight fields the handlers read with [request.form[...]]. *)
Definition required_fields : list string :=
  ["company_name"; "company_address"; "company_phone"; "company_email";
   "quotation_no"; "date"; "client_name"; "client_address"].

Definition has_required (f : form) : Prop :=
  Forall (λ k, getlist k f ≠ []) required_fields.


(** The row [create_files] of [_worker.py] keeps for an item. *)
Definition items_data_row (it : item) : list Py.value :=
  [PyStr (name it); PyFloat (quantity it);
   PyStr (format_comma_2f (price it)); PyStr (format_comma_2f (amount it))].

End Spec.

(** ** A concrete environment

    The handlers are parametric in what the source takes from its
    libraries: the parser behind [float()], what openpyxl, reportlab
    and the file system raise, the database's order on the [date]
    column, the key it gives a new row and the integers its driver
    binds, and JSON. The definitions below fix one such environment,
    the default SQLite database among them, so that the handlers can be
    run. *)

Module Env.

(** The value of a decimal digit. *)
Definition digit_val (c : ascii) : option N :=
  let n := N_of_ascii c in
  if ((48 <=? n) && (n <=? 57))%N then Some (n - 48)%N else None.

(** The number written by a string of decimal digits, after [acc]. *)
Fixpoint digits_val (s : string) (acc : N) : option N :=
  match s with
  | EmptyString => Some acc
  | String c s' => d ← digit_val c; digits_val s' (10 * acc + d)%N
  end.

(** The text before the first dot, and the text after it if there is
    one. *)
Fixpoint split_dot (s : string) : string * option string :=
  match s with
  | EmptyString => (EmptyString, None)
  | String c s' =>
    if Ascii.eqb c "."%char then (EmptyString, Some s')
    else let '(a, b) := split_dot s' in (String c a, b)
  end.

(** The float of a natural number (exact below [2^53]). *)
Definition float_of_N (n : N) : float :=
  SF2Prim (binary_normalize prec emax (Z.of_N n) 0 false).

(** [float()] on plain decimal notation, [digits] or [digits.digits]:
    the quotient of two exactly represented integers, rounded once as
    the builtin does. Other notations, and numbers of more than 53 bits
    of digits, are outside this parser. *)
Definition plain_decimal (s : string) : option float :=
  let '(int_part, frac_part) := split_dot s in
  let frac := default EmptyString frac_part in
  let k := N.of_nat (String.length frac) in
  match int_part +:+ frac with
  | EmptyString => None
  | ds =>
    n ← digits_val ds 0;
    if ((n <? 2 ^ 53) && (k <=? 22))%N
    then Some (float_of_N n / float_of_N (10 ^ k))%float
    else None
  end.

(** SQLite's order on a nullable text column: NULL is below every text,
    texts compare byte by byte. *)
Definition sqlite_le (a b : option string) : Prop :=
  match a, b with
  | None, _ => True
  | Some _, None => False
  | Some x, Some y => String.leb x y = true
  end.

#[global] Instance sqlite_le_dec : RelDecision sqlite_le.
Proof.
  intros [x|] [y|]; simpl; try (left; exact I); try (right; tauto).
  destruct (String.leb x y); [left|right]; congruence.
Defined.

(** SQLite's key for a new row of a rowid table: one above the largest
    key in use, [1] in an empty table. *)
Definition sqlite_rowid {A : Type} (db : gmap Z A) : Z :=
  (1 + map_fold (λ k _ acc, Z.max k acc) 0 db)%Z.

(** The integers [sqlite3] binds: the signed 64-bit ones. *)
Definition sqlite_bindable (id : Z) : bool :=
  ((- 2 ^ 63 <=? id) && (id <? 2 ^ 63))%Z.

(** No [c] in [s]. *)
Definition without (c : ascii) (s : string) : bool :=
  forallb (λ a, negb (Ascii.eqb a c)) (list_ascii_of_string s).

(** An output directory that is there and can be written to, with no
    directory below it: a file is written unless its name has a [/],
    which names a directory that is not there. Texts that openpyxl
    refuses are outside this file system. *)
Definition save_workbook (filename : string) (ws : Xlsx.worksheet)
    : option exn :=
  if without "/" filename then None else Some (Other "FileNotFoundError").

(** The text of a paragraph, where the flowable or table cell is one. *)
Definition cell_text (c : Pdf.cell) : list string :=
  match c with
  | Pdf.Para (PyStr s) _ => [s]
  | _ => []
  end.

Definition paragraph_texts (fl : Pdf.flowable) : list string :=
  match fl with
  | Pdf.Paragraph text _ => [text]
  | Pdf.Spacer => []
  | Pdf.Table data => concat (map (λ row, concat (map cell_text row)) data)
  end.

(** Every [<] of the text opens [<b>] or [</b>]. *)
Fixpoint bold_only (s : string) : bool :=
  match s with
  | EmptyString => true
  | String c s' =>
    (negb (Ascii.eqb c "<") || String.prefix "b>" s' || String.prefix "/b>" s')
    && bold_only s'
  end.

(** reportlab on the same directory: a paragraph whose text has a [<]
    that opens no tag it knows is refused with [ValueError] when the
    paragraph is made; here the tags of the source's own texts, [<b>]
    and [</b>], are the ones known. After that the document is written
    unless its name has a [/]. *)
Definition build_pdf (filename : string) (story : list Pdf.flowable)
    : option exn :=
  if negb (forallb bold_only (concat (map paragraph_texts story)))
  then Some ValueError
  else if without "/" filename then None
  else Some (Other "FileNotFoundError").

End Env.

(** A body without an id, and the same body sent back with id 1 and a
    later date; JSON values stand as their own text here. *)
Definition example_body : Records.body string :=
  Records.Body string None (Some "Acme") (Some "1 Main St") (Some "555")
    (Some "a@acme.test") (Some "Bob") (Some "2 Side St") (Some "Q1")
    (Some "2024-01-01") (Some 20%float) (Some "half paid") (Some "[]").

Definition example_update : Records.body string :=
  Records.Body string (Some 1%Z) (Some "Acme") (Some "1 Main St") (Some "555")
    (Some "a@acme.test") (Some "Bob") (Some "2 Side St") (Some "Q1")
    (Some "2024-02-01") (Some 45%float) (Some "paid") None.

(** The table after [example_body] was saved into an empty database. *)
Definition example_db : gmap Z Records.Quotation :=
  (Records.save_quotation string (λ j, j) "[]" Env.sqlite_bindable 1 ∅ example_body).2.



(** [example_db] after [example_update]'s fields were saved as a second
    record, dated a month later. *)
Definition two_db : gmap Z Records.Quotation :=
  <[2%Z := Records.row_of_body string (λ j, j) "[]" example_update]> example_db.

(** The form of the specification's example: three rows, the second
    without a name, and 20 received. *)
Definition example_form : form :=
  [("company_name", "Acme"); ("company_address", "1 Main St");
   ("company_phone", "555"); ("company_email", "a@acme.test");
   ("quotation_no", "Q1"); ("date", "2024-01-01");
   ("client_name", "Bob"); ("client_address", "2 Side St");
   ("received", "20");
   ("item_name[]", "Widget"); ("quantity[]", "2"); ("price[]", "10.0");
   ("item_name[]", ""); ("quantity[]", "5"); ("price[]", "3.0");
   ("item_name[]", "Gadget"); ("quantity[]", "1"); ("price[]", "25.0")].

(** [example_form] with 50 received, more than the total. *)
Definition overpaid_form : form :=
  [("company_name", "Acme"); ("company_address", "1 Main St");
   ("company_phone", "555"); ("company_email", "a@acme.test");
   ("quotation_no", "Q1"); ("date", "2024-01-01");
   ("client_name", "Bob"); ("client_address", "2 Side St");
   ("received", "50");
   ("item_name[]", "Widget"); ("quantity[]", "2"); ("price[]", "10.0");
   ("item_name[]", ""); ("quantity[]", "5"); ("price[]", "3.0");
   ("item_name[]", "Gadget"); ("quantity[]", "1"); ("price[]", "25.0")].


Definition no_received_form : form :=
  [("company_name", "Acme"); ("company_address", "1 Main St");
   ("company_phone", "555"); ("company_email", "a@acme.test");
   ("quotation_no", "Q1"); ("date", "2024-01-01");
   ("client_name", "Bob"); ("client_address", "2 Side St");
   ("item_name[]", "Widget"); ("quantity[]", "2"); ("price[]", "10.0")].

(** A form without a [date], whose numbers cannot be read either. *)
Definition no_date_form : form :=
  [("company_name", "Acme"); ("company_address", "1 Main St");
   ("company_phone", "555"); ("company_email", "a@acme.test");
   ("quotation_no", "Q1");
   ("client_name", "Bob"); ("client_address", "2 Side St");
   ("received", "a lot");
   ("item_name[]", "Widget"); ("quantity[]", "two"); ("price[]", "10.0")].

(** A form whose [received] is not a number. *)
Definition bad_received_form : form :=
  [("company_name", "Acme"); ("company_address", "1 Main St");
   ("company_phone", "555"); ("company_email", "a@acme.test");
   ("quotation_no", "Q1"); ("date", "2024-01-01");
   ("client_name", "Bob"); ("client_address", "2 Side St");
   ("received", "a lot");
   ("item_name[]", "Widget"); ("quantity[]", "2"); ("price[]", "10.0")].

(** A form whose second row with a name has the quantity [three], and
    one whose second row has no price at all. *)
Definition bad_quantity_form : form :=
  [("company_name", "Acme"); ("company_address", "1 Main St");
   ("company_phone", "555"); ("company_email", "a@acme.test");
   ("quotation_no", "Q1"); ("date", "2024-01-01");
   ("client_name", "Bob"); ("client_address", "2 Side St");
   ("item_name[]", "Widget"); ("quantity[]", "2"); ("price[]", "10.0");
   ("item_name[]", "Gadget"); ("quantity[]", "three"); ("price[]", "25.0")].

Definition short_prices_form : form :=
  [("company_name", "Acme"); ("company_address", "1 Main St");
   ("company_phone", "555"); ("company_email", "a@acme.test");
   ("quotation_no", "Q1"); ("date", "2024-01-01");
   ("client_name", "Bob"); ("client_address", "2 Side St");
   ("item_name[]", "Widget"); ("quantity[]", "2"); ("price[]", "10.0");
   ("item_name[]", "Gadget"); ("quantity[]", "1")].

(** [example_form] sent with other texts in the row without a name, a
    repeated [date], an unknown field and a spare quantity. *)
Definition noisy_form : form :=
  [("csrf", "x"); ("company_name", "Acme"); ("company_address", "1 Main St");
   ("company_phone", "555"); ("company_email", "a@acme.test");
   ("quotation_no", "Q1"); ("date", "2024-01-01"); ("date", "1999-12-31");
   ("client_name", "Bob"); ("client_address", "2 Side St");
   ("received", "20");
   ("item_name[]", "Widget"); ("quantity[]", "2"); ("price[]", "10.0");
   ("item_name[]", ""); ("quantity[]", "many"); ("price[]", "");
   ("item_name[]", "Gadget"); ("quantity[]", "1"); ("price[]", "25.0");
   ("quantity[]", "7")].

(** A form whose only row has no name. *)
Definition no_items_form : form :=
  [("company_name", "Acme"); ("company_address", "1 Main St");
   ("company_phone", "555"); ("company_email", "a@acme.test");
   ("quotation_no", "Q1"); ("date", "2024-01-01");
   ("client_name", "Bob"); ("client_address", "2 Side St");
   ("received", "20");
   ("item_name[]", ""); ("quantity[]", ""); ("price[]", "")].

(** [example_form] with the quotation number [2024/001], and with the
    company name [A<B]. *)
Definition slash_form : form :=
  [("company_name", "Acme"); ("company_address", "1 Main St");
   ("company_phone", "555"); ("company_email", "a@acme.test");
   ("quotation_no", "2024/001"); ("date", "2024-01-01");
   ("client_name", "Bob"); ("client_address", "2 Side St");
   ("received", "20");
   ("item_name[]", "Widget"); ("quantity[]", "2"); ("price[]", "10.0");
   ("item_name[]", ""); ("quantity[]", "5"); ("price[]", "3.0");
   ("item_name[]", "Gadget"); ("quantity[]", "1"); ("price[]", "25.0")].

Definition markup_form : form :=
  [("company_name", "A<B"); ("company_address", "1 Main St");
   ("company_phone", "555"); ("company_email", "a@acme.test");
   ("quotation_no", "Q1"); ("date", "2024-01-01");
   ("client_name", "Bob"); ("client_address", "2 Side St");
   ("received", "20");
   ("item_name[]", "Widget"); ("quantity[]", "2"); ("price[]", "10.0");
   ("item_name[]", ""); ("quantity[]", "5"); ("price[]", "3.0");
   ("item_name[]", "Gadget"); ("quantity[]", "1"); ("price[]", "25.0")].

(** ** Reading errors, row by row *)

Module Rows.

Section Errors.

Variable py_float : string → option float.

(** What reading row [i] raises, in the order the loop body reads:
    [quantities[i]], [float] of it, [prices[i]], [float] of it. [None]
    when the row can be read. *)
Definition row_error (quantities prices : list string) (i : nat)
    : option exn :=
  match quantities !! i with
  | None => Some IndexError
  | Some qs =>
    match py_float qs with
    | None => Some ValueError
    | Some _ =>
      match prices !! i with
      | None => Some IndexError
      | Some ps =>
        match py_float ps with
        | None => Some ValueError
        | Some _ => None
        end
      end
    end
  end.

End Errors.

End Rows.

(** ** Start-up configuration *)

Module Config.

(** [s[n:]] *)
Fixpoint skip (n : nat) (s : string) : string :=
  match n, s with
  | S n', String _ s' => skip n' s'
  | _, _ => s
  end.

(** [s.replace(old, new, 1)]: the first occurrence of [old], searched
    from the left, is replaced by [new]. *)
Fixpoint replace_first (old new s : string) {struct s} : string :=
  if String.prefix old s then new +:+ skip (String.length old) s
  else
    match s with
    | EmptyString => EmptyString
    | String c s' => String c (replace_first old new s')
    end.

(** The database URL both entry points configure when they are loaded:
    [os.environ.get('DATABASE_URL', f'sqlite:///{default_db_path}')],
    with a leading [postgres://] rewritten for SQLAlchemy. The first
    argument is the environment variable, [None] when it is not set. *)
Definition database_url (env_DATABASE_URL : option string)
    (default_db_path : string) : string :=
  let database_url :=
    default ("sqlite:///" +:+ default_db_path) env_DATABASE_URL in
  if negb (not_str database_url)
     && String.prefix "postgres://" database_url
  then replace_first "postgres://" "postgresql://" database_url
  else database_url.

End Config.

(** * Properties *)

(** ** Binary64 subtraction *)

Module Binary64Facts.

#[local] Open Scope Z_scope.

Lemma SFltb_zero x : SFltb x (S754_zero false) = Binary64.negative x.
Proof. destruct x as [s|s| |s m e]; try destruct s; reflexivity. Qed.

Lemma digits2_pos_bounds m :
  2 ^ (Zpos (digits2_pos m) - 1) <= Zpos m < 2 ^ Zpos (digits2_pos m).
Proof.
  induction m as [m IH|m IH|]; simpl digits2_pos.
  - rewrite Pos2Z.inj_succ.
    replace (Z.succ (Zpos (digits2_pos m)) - 1)
      with (Z.succ (Zpos (digits2_pos m) - 1)) by lia.
    rewrite !Z.pow_succ_r by lia. lia.
  - rewrite Pos2Z.inj_succ.
    replace (Z.succ (Zpos (digits2_pos m)) - 1)
      with (Z.succ (Zpos (digits2_pos m) - 1)) by lia.
    rewrite !Z.pow_succ_r by lia. lia.
  - simpl. lia.
Qed.

Lemma shr_1_m mrs : 0 <= shr_m mrs -> shr_m (shr_1 mrs) = shr_m mrs / 2.
Proof.
  destruct mrs as [m r s]. simpl. intros Hm.
  destruct m as [|p|p]; [reflexivity| |lia].
  destruct p as [p|p|]; simpl.
  - rewrite Pos2Z.inj_xI. apply (Z.div_unique _ _ _ 1); lia.
  - rewrite Pos2Z.inj_xO. apply (Z.div_unique _ _ _ 0); lia.
  - reflexivity.
Qed.

Lemma iter_pos_shr_m p : forall mrs, 0 <= shr_m mrs ->
  shr_m (SpecFloat.iter_pos shr_1 p mrs) = shr_m mrs / 2 ^ Zpos p.
Proof.
  assert (Hnn : forall m k, 0 <= m -> 0 <= m / 2 ^ Zpos k).
  { intros m k Hm. apply Z.div_pos; [lia|]. apply Z.pow_pos_nonneg; lia. }
  assert (Hpp : forall k, 0 < 2 ^ Zpos k) by (intros k; apply Z.pow_pos_nonneg; lia).
  induction p as [p IH|p IH|]; intros mrs Hm; simpl SpecFloat.iter_pos.
  - assert (H1 : 0 <= shr_m (shr_1 mrs)).
    { rewrite shr_1_m by lia. apply Z.div_pos; lia. }
    assert (H2 : 0 <= shr_m (SpecFloat.iter_pos shr_1 p (shr_1 mrs))).
    { rewrite IH by lia. apply Hnn. lia. }
    rewrite IH, IH, shr_1_m by lia.
    rewrite !Z.div_div by (try apply Hpp; lia).
    f_equal. assert (E : Z.pos p~1 = 1 + Z.pos p + Z.pos p) by lia.
    rewrite E, !Z.pow_add_r by lia. rewrite Z.pow_1_r. ring.
  - assert (H2 : 0 <= shr_m (SpecFloat.iter_pos shr_1 p mrs)).
    { rewrite IH by lia. apply Hnn. lia. }
    rewrite IH, IH by lia.
    rewrite !Z.div_div by (try apply Hpp; lia).
    f_equal. assert (E : Z.pos p~0 = Z.pos p + Z.pos p) by lia.
    rewrite E, !Z.pow_add_r by lia. ring.
  - rewrite shr_1_m by lia. reflexivity.
Qed.

Lemma shr_m_of_loc m l : shr_m (shr_record_of_loc m l) = m.
Proof. destruct l as [|[| |]]; reflexivity. Qed.

Lemma fexp_ge_emin z : SpecFloat.emin prec emax <= fexp prec emax z.
Proof. unfold fexp. apply Z.le_max_r. Qed.

(** Shifting a positive mantissa to its canonical exponent keeps it
    positive when the exponent is not below [emin]. *)
Lemma shr_fexp_pos m e l :
  0 < m -> SpecFloat.emin prec emax <= e ->
  0 < shr_m (fst (shr_fexp prec emax m e l))
  /\ SpecFloat.emin prec emax <= snd (shr_fexp prec emax m e l).
Proof.
  intros Hm He. unfold shr_fexp, shr.
  destruct (fexp prec emax (Zdigits2 m + e) - e) as [|p|p] eqn:En; simpl;
    rewrite ?shr_m_of_loc; try (split; lia).
  rewrite iter_pos_shr_m by (rewrite shr_m_of_loc; lia).
  rewrite shr_m_of_loc. split; [|lia].
  destruct m as [|q|q]; try lia. simpl Zdigits2 in En.
  pose proof (digits2_pos_bounds q) as [Hlo _].
  unfold fexp in En.
  assert (Hp : Zpos p = Zpos (digits2_pos q) - prec).
  { change prec with 53 in *. lia. }
  apply Z.div_str_pos. split; [apply Z.pow_pos_nonneg; lia|].
  etransitivity; [|exact Hlo].
  apply Z.pow_le_mono_r; [lia|]. rewrite Hp. change prec with 53. lia.
Qed.

Lemma round_nearest_even_ge m l : m <= round_nearest_even m l.
Proof. destruct l as [|[| |]]; simpl; try lia. destruct (Z.even m); lia. Qed.

Lemma binary_round_aux_signed sx mx ex lx :
  0 < mx -> SpecFloat.emin prec emax <= ex ->
  Binary64.signed sx (binary_round_aux prec emax sx mx ex lx).
Proof.
  intros Hm He. unfold binary_round_aux.
  pose proof (shr_fexp_pos mx ex lx Hm He) as [H1 H1e].
  destruct (shr_fexp prec emax mx ex lx) as [mrs1 e1]. simpl in H1, H1e.
  pose proof (round_nearest_even_ge (shr_m mrs1) (loc_of_shr_record mrs1)) as Hr.
  pose proof (shr_fexp_pos (round_nearest_even (shr_m mrs1) (loc_of_shr_record mrs1))
    e1 loc_Exact ltac:(lia) H1e) as [H2 _].
  destruct (shr_fexp prec emax _ e1 loc_Exact) as [mrs2 e2]. simpl in H2.
  destruct (shr_m mrs2) as [|q|q]; try lia.
  destruct (e2 <=? emax - prec); reflexivity.
Qed.

Lemma binary_round_signed sx mx ex :
  SpecFloat.emin prec emax <= ex -> Binary64.signed sx (binary_round prec emax sx mx ex).
Proof.
  intros He. unfold binary_round.
  destruct (shl_align mx ex _) as [mz ez] eqn:Ea.
  apply binary_round_aux_signed; [lia|].
  unfold shl_align in Ea.
  destruct (fexp prec emax (Z.pos (digits2_pos mx) + ex) - ex) eqn:Ed;
    injection Ea as <- <-; try lia.
  apply fexp_ge_emin.
Qed.

Lemma pos_iter_xO m d : Zpos (Pos.iter xO m d) = Zpos m * 2 ^ Zpos d.
Proof.
  induction d as [|d IH] using Pos.peano_ind.
  - simpl. lia.
  - rewrite Pos.iter_succ, Pos2Z.inj_xO, IH, Pos2Z.inj_succ, Z.pow_succ_r by lia.
    ring.
Qed.

(** Aligning a mantissa to a lower exponent multiplies it by the power
    of two between them. *)
Lemma shl_align_fst m e e' :
  e' <= e -> Zpos (fst (shl_align m e e')) = Zpos m * 2 ^ (e - e').
Proof.
  intros He. unfold shl_align.
  destruct (e' - e) as [|d|d] eqn:Ed; cbn [fst].
  - replace (e - e') with 0 by lia. lia.
  - lia.
  - rewrite pos_iter_xO. f_equal. f_equal. lia.
Qed.

(** A valid mantissa has at most 53 bits, and exactly 53 above the
    lowest exponent. *)
Lemma bounded_digits m e :
  bounded prec emax m e = true ->
  SpecFloat.emin prec emax <= e
  /\ Zpos m < 2 ^ 53
  /\ (SpecFloat.emin prec emax < e -> 2 ^ 52 <= Zpos m).
Proof.
  unfold bounded, canonical_mantissa, fexp. intros H.
  apply andb_prop in H as [H _]. apply Z.eqb_eq in H.
  pose proof (digits2_pos_bounds m) as [Hlo Hhi].
  change prec with 53 in *. change emax with 1024 in *.
  change (SpecFloat.emin 53 1024) with (-1074) in *.
  split; [lia|]. split.
  - eapply Z.lt_le_trans; [exact Hhi|]. apply Z.pow_le_mono_r; lia.
  - intros He. assert (Zpos (digits2_pos m) = 53) as Hd by lia.
    rewrite Hd in Hlo. exact Hlo.
Qed.

(** Of two valid positive floats, the one with the lower exponent is
    the smaller. *)
Lemma lower_exponent_smaller m1 e1 m2 e2 :
  bounded prec emax m1 e1 = true -> bounded prec emax m2 e2 = true ->
  e1 < e2 -> Zpos m1 < Zpos m2 * 2 ^ (e2 - e1).
Proof.
  intros H1 H2 He.
  apply bounded_digits in H1 as (He1 & Hm1 & _).
  apply bounded_digits in H2 as (_ & _ & Hm2).
  specialize (Hm2 ltac:(lia)).
  assert (2 ^ 1 <= 2 ^ (e2 - e1)) by (apply Z.pow_le_mono_r; lia).
  change (2 ^ 1) with 2 in *. change (2 ^ 53) with (2 ^ 52 * 2) in Hm1.
  nia.
Qed.

Lemma compare_cont_Eq_Lt m1 m2 :
  Pos.compare_cont Eq m1 m2 = Lt -> Zpos m1 < Zpos m2.
Proof. intros H. apply Pos2Z.pos_lt_pos, Pos.compare_lt_iff. exact H. Qed.

Lemma compare_cont_Eq_Gt m1 m2 :
  Pos.compare_cont Eq m1 m2 = Gt -> Zpos m2 < Zpos m1.
Proof. intros H. apply Pos2Z.pos_lt_pos, Pos.compare_gt_iff. exact H. Qed.

(** On valid floats, [x < y] makes [x - y] a negative nonzero float. *)
Lemma SFsub_negative x y :
  SpecFloat.valid_binary prec emax x = true ->
  SpecFloat.valid_binary prec emax y = true ->
  SFltb x y = true -> Binary64.negative (SFsub prec emax x y) = true.
Proof.
  intros Hx Hy Hlt. unfold SFltb in Hlt.
  destruct x as [sx|sx| |sx mx ex], y as [sy|sy| |sy my ey]; simpl in Hlt;
    try discriminate;
    try (destruct sx; try discriminate; try destruct sy; try discriminate;
         reflexivity).
  simpl in Hx, Hy. unfold SFsub.
    set (ez := Z.min ex ey). assert (Hmin : ez = Z.min ex ey) by reflexivity.
    assert (Hmx := shl_align_fst mx ex ez ltac:(lia)).
    assert (Hmy := shl_align_fst my ey ez ltac:(lia)).
    destruct (bounded_digits _ _ Hx) as (Hex & _ & _).
    destruct (bounded_digits _ _ Hy) as (Hey & _ & _).
    assert (Hez : SpecFloat.emin prec emax <= ez) by lia.
    assert (Hpx : 0 < 2 ^ (ex - ez)) by (apply Z.pow_pos_nonneg; lia).
    assert (Hpy : 0 < 2 ^ (ey - ez)) by (apply Z.pow_pos_nonneg; lia).
    assert (Hd : cond_Zopp sx (Zpos (fst (shl_align mx ex ez)))
                 - cond_Zopp sy (Zpos (fst (shl_align my ey ez))) < 0).
    { rewrite Hmx, Hmy. clear Hmx Hmy. clearbody ez.
      destruct sx, sy; cbn [cond_Zopp]; try discriminate.
      - destruct (ex ?= ey) eqn:Ec; try discriminate.
        + apply Z.compare_eq in Ec. subst ey.
          destruct (Pos.compare_cont Eq mx my) eqn:Em; try discriminate.
          apply compare_cont_Eq_Gt in Em.
          replace (ex - ez) with 0 by lia. rewrite Z.pow_0_r. lia.
        + assert (Hgt : ey < ex) by (apply Z.compare_gt_iff; exact Ec).
          pose proof (lower_exponent_smaller my ey mx ex Hy Hx Hgt).
          replace ez with ey by lia. replace (ey - ey) with 0 by lia.
          rewrite Z.pow_0_r. lia.
      - nia.
      - destruct (ex ?= ey) eqn:Ec; try discriminate.
        + apply Z.compare_eq in Ec. subst ey.
          destruct (Pos.compare_cont Eq mx my) eqn:Em; try discriminate.
          apply compare_cont_Eq_Lt in Em.
          replace (ex - ez) with 0 by lia. rewrite Z.pow_0_r. lia.
        + assert (Hlt' : ex < ey) by exact Ec.
          pose proof (lower_exponent_smaller mx ex my ey Hx Hy Hlt').
          replace ez with ex by lia. replace (ex - ex) with 0 by lia.
          rewrite Z.pow_0_r. lia. }
    destruct (cond_Zopp sx _ - cond_Zopp sy _) as [|d|d] eqn:Ed; try lia.
    simpl binary_normalize.
    pose proof (binary_round_signed true d ez Hez) as Hs.
    destruct (binary_round prec emax true d ez) as [s|s| |s m e];
      simpl in Hs; try contradiction; subst; reflexivity.
Qed.

(** Binary64 subtraction: when [x < y], the difference [x - y] is
    below zero; it is never rounded to zero. *)
Lemma float_sub_negative (x y : float) :
  (x <? y)%float = true -> (x - y <? 0)%float = true.
Proof.
  rewrite !ltb_spec, sub_spec. intros H.
  change (Prim2SF 0) with (S754_zero false). rewrite SFltb_zero.
  apply SFsub_negative; auto using Prim2SF_valid.
Qed.

End Binary64Facts.

(** ** The calculator *)

(** Destructs the binds of a handler that returned [Ok]. *)
Ltac bind_inv H :=
  repeat match type of H with
  | mbind _ ?m = Ok _ =>
    let E := fresh "E" in
    destruct m eqn:E; cbn [mbind result_bind] in H; [|discriminate H]
  | (let '(_, _) := ?p in _) = Ok _ => destruct p
  end.

(** Cases on the eight required fields, in the order they are read. *)
Ltac destruct_required f :=
  destruct (getitem "company_name" f); cbn [mbind result_bind]; [|done];
  destruct (getitem "company_address" f); cbn [mbind result_bind]; [|done];
  destruct (getitem "company_phone" f); cbn [mbind result_bind]; [|done];
  destruct (getitem "company_email" f); cbn [mbind result_bind]; [|done];
  destruct (getitem "quotation_no" f); cbn [mbind result_bind]; [|done];
  destruct (getitem "date" f); cbn [mbind result_bind]; [|done];
  destruct (getitem "client_name" f); cbn [mbind result_bind]; [|done];
  destruct (getitem "client_address" f); cbn [mbind result_bind]; [|done].

Section Calculator.

Variable py_float : string → option float.

Lemma index_Ok {A : Type} (l : list A) (i : nat) (x : A) :
  index l i = Ok x ↔ l !! i = Some x.
Proof. unfold index. destruct (l !! i); split; congruence. Qed.

Lemma to_float_Ok (s : string) (x : float) :
  to_float py_float s = Ok x ↔ py_float s = Some x.
Proof. unfold to_float. destruct (py_float s); split; congruence. Qed.

Lemma not_str_true (s : string) : not_str s = true ↔ s = EmptyString.
Proof. destruct s; simpl; split; congruence. Qed.

Lemma not_str_false (s : string) : not_str s = false ↔ s ≠ EmptyString.
Proof. destruct s; simpl; split; congruence. Qed.

(** The three loops that build item dicts are the same function. *)
Lemma create_files_loop_eq :
  App.create_files_loop py_float = App.generate_loop py_float.
Proof. reflexivity. Qed.

Lemma worker_generate_loop_eq :
  Worker.generate_loop py_float = App.generate_loop py_float.
Proof. reflexivity. Qed.

Lemma worker_generate_eq : Worker.generate py_float = App.generate py_float.
Proof. reflexivity. Qed.

(** What a run of the loop over [idxs] adds to its accumulators. *)
Lemma generate_loop_Ok names qs ps idxs items total items' total' :
  App.generate_loop py_float names qs ps idxs items total = Ok (items', total') →
  ∃ new,
    items' = items ++ new
    ∧ Forall2 (λ i it, Spec.row_item py_float names qs ps i = Some it)
        (filter (λ i, names !! i ≠ Some EmptyString) idxs) new
    ∧ total' = foldl PrimFloat.add total
        ((λ it, (quantity it * price it)%float) <$> new).
Proof.
  revert items total. induction idxs as [|i idxs IH]; intros items total H.
  - simpl in H. injection H as <- <-. exists []. rewrite app_nil_r. auto.
  - simpl in H. destruct (index names i) as [n|] eqn:En; [|discriminate].
    apply index_Ok in En. simpl in H.
    destruct (not_str n) eqn:Hn.
    + apply not_str_true in Hn as ->. apply IH in H as (new & -> & HF & ->).
      exists new. split_and!; [done| |done].
      rewrite filter_cons_False; [done|]. intros Hne. by apply Hne.
    + apply not_str_false in Hn.
      destruct (index qs i) as [q_s|] eqn:Eqs; [|discriminate].
      apply index_Ok in Eqs. simpl in H.
      destruct (to_float py_float q_s) as [q|] eqn:Eq; [|discriminate].
      apply to_float_Ok in Eq. simpl in H.
      destruct (index ps i) as [p_s|] eqn:Eps; [|discriminate].
      apply index_Ok in Eps. simpl in H.
      destruct (to_float py_float p_s) as [p|] eqn:Ep; [|discriminate].
      apply to_float_Ok in Ep. simpl in H.
      apply IH in H as (new & -> & HF & ->).
      exists (Item n q p (q * p)%float :: new). split_and!.
      * by rewrite <- app_assoc.
      * rewrite filter_cons_True by (rewrite En; congruence).
        constructor; [|done].
        unfold Spec.row_item. rewrite En, Eqs. simpl. rewrite Eq. simpl.
        rewrite Eps. simpl. by rewrite Ep.
      * done.
Qed.

(** The loop finishes when every index is in range and every row with a
    name can be read. *)
Lemma generate_loop_finishes names qs ps idxs items total :
  (∀ i, i ∈ idxs → i < length names) →
  (∀ i, i ∈ filter (λ i, names !! i ≠ Some EmptyString) idxs →
     is_Some (Spec.row_item py_float names qs ps i)) →
  ∃ r, App.generate_loop py_float names qs ps idxs items total = Ok r.
Proof.
  revert items total. induction idxs as [|i idxs IH]; intros items total Hr Hrow.
  - simpl. eauto.
  - simpl. destruct (lookup_lt_is_Some_2 names i) as [n En].
    { apply Hr. left. }
    assert (Hr' : ∀ j, j ∈ idxs → j < length names)
      by (intros j Hj; apply Hr; by right).
    rewrite (proj2 (index_Ok names i n) En). cbn [mbind result_bind].
    destruct (not_str n) eqn:Hn.
    + apply not_str_true in Hn as ->. apply IH; [done|].
      intros j Hj. apply Hrow. rewrite filter_cons_False; [done|].
      intros Hne. by apply Hne.
    + apply not_str_false in Hn.
      assert (Hkeep : names !! i ≠ Some EmptyString) by (rewrite En; congruence).
      destruct (Hrow i) as [it Hit].
      { rewrite filter_cons_True by done. left. }
      unfold Spec.row_item in Hit. rewrite En in Hit. simpl in Hit.
      destruct (qs !! i) as [q_s|] eqn:Eqs; [|discriminate]. simpl in Hit.
      destruct (py_float q_s) as [q|] eqn:Eq; [|discriminate]. simpl in Hit.
      destruct (ps !! i) as [p_s|] eqn:Eps; [|discriminate]. simpl in Hit.
      destruct (py_float p_s) as [p|] eqn:Ep; [|discriminate].
      rewrite (proj2 (index_Ok qs i q_s) Eqs). cbn [mbind result_bind].
      rewrite (proj2 (to_float_Ok q_s q) Eq). cbn [mbind result_bind].
      rewrite (proj2 (index_Ok ps i p_s) Eps). cbn [mbind result_bind].
      rewrite (proj2 (to_float_Ok p_s p) Ep). cbn [mbind result_bind].
      apply IH; [done|].
      intros j Hj. apply Hrow. rewrite filter_cons_True by done. by right.
Qed.

Lemma getitem_Ok k f : getlist k f ≠ [] → ∃ v, getitem k f = Ok v.
Proof. unfold getitem. destruct (getlist k f); [done|eauto]. Qed.

(** What [generate] returns when it returns. *)
Lemma generate_Ok f data items :
  App.generate py_float f = Ok (data, items) →
  Spec.calculated py_float f items (pd_total_amount data)
  ∧ py_float (Py.or (get "received" "0" f) "0") = Some (pd_received data)
  ∧ pd_balance data = (pd_total_amount data - pd_received data)%float.
Proof.
  intros H. unfold App.generate in H. bind_inv H.
  injection H as <- <-. simpl.
  match goal with E : to_float _ _ = Ok _ |- _ => apply to_float_Ok in E end.
  match goal with E : App.generate_loop _ _ _ _ _ _ _ = Ok _ |- _ =>
    apply generate_loop_Ok in E as (new & -> & HF & ->) end.
  split_and!; done.
Qed.

(** [generate] returns whenever the required fields are there, the rows
    with a name can be read and so can [received]. *)
Lemma generate_finishes f r :
  Spec.has_required f → Spec.rows_readable py_float f →
  py_float (Py.or (get "received" "0" f) "0") = Some r →
  ∃ data items, App.generate py_float f = Ok (data, items)
    ∧ pd_received data = r.
Proof.
  intros Hreq Hrows Hrec. unfold Spec.has_required, Spec.required_fields in Hreq.
  repeat match goal with
  | H : Forall _ (_ :: _) |- _ => apply Forall_cons in H as [?%getitem_Ok H]
  end.
  destruct_and?. repeat match goal with H : ∃ _, _ |- _ => destruct H end.
  destruct (generate_loop_finishes (getlist "item_name[]" f)
    (getlist "quantity[]" f) (getlist "price[]" f)
    (seq 0 (length (getlist "item_name[]" f))) [] 0%float) as [[items t] Hl].
  { intros i Hi. apply elem_of_seq in Hi. lia. }
  { exact Hrows. }
  unfold App.generate.
  repeat match goal with H : getitem _ _ = Ok _ |- _ =>
    rewrite H; cbn [mbind result_bind]; clear H end.
  unfold to_float. rewrite Hrec. cbn [mbind result_bind].
  rewrite Hl. cbn [mbind result_bind]. eauto.
Qed.


(** The loop of the worker's [create_files] runs the same calculation
    and keeps a formatted row for each item. *)
Lemma worker_create_files_loop_rows names qs ps idxs items total :
  Worker.create_files_loop py_float names qs ps idxs
    (Spec.items_data_row <$> items) total
  = match App.generate_loop py_float names qs ps idxs items total with
    | Ok (items', total') => Ok (Spec.items_data_row <$> items', total')
    | Raise e => Raise e
    end.
Proof.
  revert items total. induction idxs as [|i idxs IH]; intros items total.
  - done.
  - simpl. destruct (index names i) as [n|]; [|done]. cbn [mbind result_bind].
    destruct (not_str n); [apply IH|].
    destruct (index qs i) as [q_s|]; [|done]. cbn [mbind result_bind].
    destruct (to_float py_float q_s) as [q|]; [|done]. cbn [mbind result_bind].
    destruct (index ps i) as [p_s|]; [|done]. cbn [mbind result_bind].
    destruct (to_float py_float p_s) as [p|]; [|done]. cbn [mbind result_bind].
    rewrite <- IH. by rewrite fmap_app.
Qed.


End Calculator.


(** ** Worksheets *)

Module Sheets.

Import Xlsx.

Lemma value_at_touch r c ws r' c' :
  value_at r' c' (touch r c ws) = value_at r' c' ws.
Proof.
  unfold value_at, touch. destruct (cells ws !! (r, c)) eqn:E; [done|]. simpl.
  destruct (decide ((r, c) = (r', c'))) as [<-|Hne].
  - by rewrite lookup_insert_eq, E.
  - by rewrite lookup_insert_ne.
Qed.

Lemma value_at_set_cell r c v ws :
  value_at r c (set_cell r c v ws) = v.
Proof. unfold value_at, set_cell. simpl. by rewrite lookup_insert_eq. Qed.

Lemma value_at_set_cell_ne r c v ws r' c' :
  (r, c) ≠ (r', c') →
  value_at r' c' (set_cell r c v ws) = value_at r' c' ws.
Proof.
  intros Hne. unfold set_cell.
  rewrite <- (value_at_touch r c ws r' c'). unfold value_at. simpl.
  by rewrite lookup_insert_ne.
Qed.

(** [map_fold] of [max] over the rows of the keys is their maximum. *)
Lemma max_fold_spec (m : gmap (nat * nat) cell_value) :
  (∀ k, is_Some (m !! k) → k.1 ≤ map_fold (λ k _ acc, k.1 `max` acc) 0 m)
  ∧ (m ≠ ∅ →
     ∃ k, is_Some (m !! k) ∧ k.1 = map_fold (λ k _ acc, k.1 `max` acc) 0 m).
Proof.
  cut ((∀ k, is_Some (m !! k) → k.1 ≤ map_fold (λ k _ acc, k.1 `max` acc) 0 m)
    ∧ (m ≠ ∅ →
       ∃ k, is_Some (m !! k) ∧ k.1 = map_fold (λ k _ acc, k.1 `max` acc) 0 m)
    ∧ (m = ∅ → map_fold (λ k _ acc, k.1 `max` acc) 0 m = 0)).
  { intros (? & ? & _). done. }
  apply (map_fold_weak_ind (λ r (m : gmap (nat * nat) cell_value),
    (∀ k, is_Some (m !! k) → k.1 ≤ r)
    ∧ (m ≠ ∅ → ∃ k, is_Some (m !! k) ∧ k.1 = r)
    ∧ (m = ∅ → r = 0))).
  - split_and!; [|done|done]. intros k [v Hv]. by rewrite lookup_empty in Hv.
  - intros i x m' r Hi (Hle & Hex & Hemp). split_and!.
    + intros k Hk. destruct (decide (i = k)) as [<-|Hne]; [lia|].
      rewrite lookup_insert_ne in Hk by done. apply Hle in Hk. lia.
    + intros _. destruct (decide (m' = ∅)) as [He|Hne].
      * exists i. rewrite lookup_insert_eq. split; [by eexists|].
        rewrite (Hemp He). lia.
      * destruct (Hex Hne) as (k & Hk & <-).
        destruct (Nat.max_spec (i.1) (k.1)) as [[_ ->]|[_ ->]].
        -- exists k. split; [|done]. destruct (decide (i = k)) as [<-|?].
           ++ rewrite lookup_insert_eq. by eexists.
           ++ by rewrite lookup_insert_ne.
        -- exists i. rewrite lookup_insert_eq. split; [by eexists|done].
    + intros He. by apply insert_non_empty in He.
Qed.

(** [max_row] is the row of a cell that no cell lies below. *)
Lemma max_row_eq ws r c :
  is_Some (cells ws !! (r, c)) →
  (∀ r' c', is_Some (cells ws !! (r', c')) → r' ≤ r) →
  max_row ws = r.
Proof.
  intros Hin Hle. unfold max_row.
  destruct (decide (cells ws = ∅)) as [He|Hne].
  { rewrite He, lookup_empty in Hin. by destruct Hin. }
  destruct (max_fold_spec (cells ws)) as [Hge Hex].
  destruct (Hex Hne) as ([r1 c1] & Hk & Hr1). simpl in Hr1.
  apply Hle in Hk. apply Hge in Hin. simpl in Hin. lia.
Qed.

Lemma lookup_put_row r c vs m r' c' :
  put_row r c vs m !! (r', c')
  = if decide (r' = r ∧ c ≤ c' < c + length vs) then vs !! (c' - c)
    else m !! (r', c').
Proof.
  revert c m. induction vs as [|v vs IH]; intros c m; simpl.
  - case_decide; [lia|done].
  - rewrite IH. destruct (decide (r' = r ∧ S c ≤ c' < S c + length vs)).
    + rewrite decide_True by lia. destruct (c' - c) as [|k] eqn:Ek; [lia|].
      simpl. f_equal. lia.
    + destruct (decide ((r, c) = (r', c'))) as [[= <- <-]|Hne].
      * rewrite lookup_insert_eq, decide_True by lia. by rewrite Nat.sub_diag.
      * rewrite lookup_insert_ne by done. rewrite decide_False; [done|].
        intros [-> Hc]. assert (c' = c) as -> by lia. done.
Qed.

(** A run of [append]s over [rows]: the counter moves by their number,
    the rows written so far are kept, and row [k] lands [k + 1] rows
    below the counter. *)
Lemma foldl_append_spec (rows : list (list Py.value)) ws :
  let ws' := foldl (λ w item, append (of_value <$> item) w) ws rows in
  current_row ws' = current_row ws + length rows
  ∧ (∀ r' c', r' ≤ current_row ws →
       cells ws' !! (r', c') = cells ws !! (r', c'))
  ∧ (∀ k item j v, rows !! k = Some item → item !! j = Some v →
       cells ws' !! (current_row ws + 1 + k, 1 + j) = Some (of_value v))
  ∧ ((∀ r' c', is_Some (cells ws !! (r', c')) → r' ≤ current_row ws) →
     ∀ r' c', is_Some (cells ws' !! (r', c')) →
       r' ≤ current_row ws + length rows).
Proof.
  revert ws. induction rows as [|item rows IH]; intros ws; simpl.
  - split_and!; [lia|done| |].
    + intros k item j v Hk. by rewrite lookup_nil in Hk.
    + intros H r' c' Hs. apply H in Hs. lia.
  - destruct (IH (append (of_value <$> item) ws)) as (Hcur & Hold & Hnew & Hbound).
    simpl in *. split_and!.
    + lia.
    + intros r' c' Hr. rewrite Hold by lia. rewrite lookup_put_row.
      rewrite decide_False by lia. done.
    + intros k it j v Hk Hj. destruct k as [|k]; simpl in Hk.
      * injection Hk as ->. rewrite Hold by lia. rewrite lookup_put_row.
        rewrite decide_True.
        2:{ rewrite length_fmap. apply lookup_lt_Some in Hj. lia. }
        replace (S j - 1) with j by lia.
        by rewrite list_lookup_fmap, Hj.
      * replace (current_row ws + 1 + S k)
          with (S (current_row ws) + 1 + k) by lia.
        by eapply Hnew.
    + intros H r' c' Hs. apply Hbound in Hs; [lia|].
      intros r1 c1. rewrite lookup_put_row. case_decide; [lia|].
      intros Hs1. apply H in Hs1. lia.
Qed.

Lemma value_at_set_cell_dec r c v ws r' c' :
  value_at r' c' (set_cell r c v ws)
  = if decide (r = r' ∧ c = c') then v else value_at r' c' ws.
Proof.
  case_decide as H.
  - destruct H as [<- <-]. apply value_at_set_cell.
  - apply value_at_set_cell_ne. intros [= <- <-]. by apply H.
Qed.

(** Rewrites [value_at] through the writes of a sheet. *)
Ltac value_at_simpl :=
  repeat first
    [ rewrite value_at_touch
    | rewrite value_at_set_cell_dec;
      first [rewrite decide_True by lia | rewrite decide_False by lia] ].

(** The item rows of [generate_excel]: row [row + k] holds item [k],
    its price and amount as numbers, and the rows above are kept. *)
Lemma excel_items_spec items row ws :
  (App.excel_items items row ws).2 = row + length items
  ∧ (∀ r c, r < row →
       value_at r c (App.excel_items items row ws).1 = value_at r c ws)
  ∧ (∀ k it, items !! k = Some it →
       value_at (row + k) 1 (App.excel_items items row ws).1 = Text (name it)
       ∧ value_at (row + k) 2 (App.excel_items items row ws).1
         = Number (quantity it)
       ∧ value_at (row + k) 3 (App.excel_items items row ws).1
         = Number (price it)
       ∧ value_at (row + k) 4 (App.excel_items items row ws).1
         = Number (amount it)).
Proof.
  revert row ws. induction items as [|it0 items IH]; intros row ws.
  - simpl. split_and!; [lia|done|]. intros k it Hk. by rewrite lookup_nil in Hk.
  - cbn [App.excel_items foldl].
    match goal with |- context [App.excel_items items (S row) ?w] =>
      destruct (IH (S row) w) as (Hrow & Hold & Hnew) end.
    split_and!.
    + rewrite Hrow. simpl. lia.
    + intros r c Hr. rewrite Hold by lia. by value_at_simpl.
    + intros k it Hk. destruct k as [|k]; simpl in Hk.
      * injection Hk as ->. rewrite Nat.add_0_r, !Hold by lia.
        by value_at_simpl.
      * replace (row + S k) with (S row + k) by lia. by apply Hnew.
Qed.

(** The sheet of [generate_excel], when the workbook is saved: the file
    name, items from row 10 on, then the three totals, each a label in
    column 3 and a number in column 4. *)
Lemma generate_excel_cells save_workbook cn ca cp ce qn d cln cla items total
    received balance dep filename ws :
  App.generate_excel save_workbook cn ca cp ce qn d cln cla items total
    received balance dep = Ok (filename, ws) →
  filename = "Quotation_" +:+ qn +:+ ".xlsx"
  ∧ save_workbook filename ws = None
  ∧ (∀ k it, items !! k = Some it →
       value_at (10 + k) 3 ws = Number (price it)
       ∧ value_at (10 + k) 4 ws = Number (amount it))
  ∧ value_at (10 + length items) 3 ws = Text "總計:"
  ∧ value_at (10 + length items) 4 ws = of_value total
  ∧ value_at (10 + length items + 1) 3 ws = Text "已收訂金:"
  ∧ value_at (10 + length items + 1) 4 ws = Number received
  ∧ value_at (10 + length items + 2) 3 ws = Text "餘額:"
  ∧ value_at (10 + length items + 2) 4 ws = Number balance.
Proof.
  unfold App.generate_excel.
  match goal with |- context [App.excel_items items 10 ?w] =>
    pose proof (excel_items_spec items 10 w) as (Hrow & _ & Hnew);
    destruct (App.excel_items items 10 w) as [ws1 row1] end.
  simpl in Hrow, Hnew. subst row1.
  destruct (save_workbook _ _) as [e|] eqn:Hsave;
    cbn [raising mbind result_bind]; [discriminate|].
  intros [= <- <-]. split; [done|]. split; [exact Hsave|].
  replace (10 + length items + 1) with (S (10 + length items)) by lia.
  replace (10 + length items + 2) with (S (S (10 + length items))) by lia.
  split_and!; try (by value_at_simpl).
  intros k it Hk. pose proof (lookup_lt_Some _ _ _ Hk) as Hlt.
  destruct (Hnew k it Hk) as (_ & _ & H3 & H4).
  value_at_simpl. done.
Qed.

End Sheets.

Import Sheets.

(** ** Preview and documents *)

(** For a handler run on a concrete form: the case in which it returns,
    with the returned value in place of the run; the other case is
    closed by running the handler. *)
Ltac returned g E :=
  match goal with
  | |- ∃ _, ?t = Ok _ ∧ _ =>
    destruct t as [g|?] eqn:E;
    [exists g; split; [reflexivity|]
    |exfalso; vm_compute in E; discriminate E]
  end.

Section Documents.

Import Xlsx.

Variable py_float : string → option float.
Variable save_workbook : string → worksheet → option exn.
Variable build_pdf : string → list Pdf.flowable → option exn.

(** [create_files] of [app.py] runs the calculation of [generate] and
    hands its results to the two exporters, the spreadsheet's first. *)
Lemma create_files_generate f :
  App.create_files py_float save_workbook build_pdf f
  = '(data, items) ← App.generate py_float f;
    '(excel_filename, wb) ←
      App.generate_excel save_workbook (pd_company_name data)
        (pd_company_address data) (pd_company_phone data)
        (pd_company_email data) (pd_quotation_no data) (pd_date data)
        (pd_client_name data) (pd_client_address data) items
        (App.total_value items (pd_total_amount data)) (pd_received data)
        (pd_balance data) (pd_deposit_info data);
    '(pdf_filename, doc) ←
      App.generate_pdf build_pdf (pd_company_name data)
        (pd_company_address data) (pd_company_phone data)
        (pd_company_email data) (pd_quotation_no data) (pd_date data)
        (pd_client_name data) (pd_client_address data) items
        (App.total_value items (pd_total_amount data)) (pd_received data)
        (pd_balance data) (pd_deposit_info data);
    Ok (Generated excel_filename wb pdf_filename doc).
Proof.
  unfold App.create_files, App.generate.
  destruct_required f.
  destruct (to_float _ _); cbn [mbind result_bind]; [|done].
  change (App.create_files_loop py_float) with (App.generate_loop py_float).
  by destruct (App.generate_loop _ _ _ _ _ _ _) as [[items total]|].
Qed.

(** What [generate_pdf] hands to reportlab, when the document is
    built. *)
Lemma generate_pdf_story cn ca cp ce qn d cln cla items total received
    balance dep filename story :
  App.generate_pdf build_pdf cn ca cp ce qn d cln cla items total received
    balance dep = Ok (filename, story) →
  filename = "Quotation_" +:+ qn +:+ ".pdf"
  ∧ build_pdf filename story = None
  ∧ story !! 8
    = Some (Pdf.Table
        ([Pdf.Str "項目"; Pdf.Str "數量"; Pdf.Str "單價"; Pdf.Str "金額"]
         :: map (λ it, [Pdf.Str (name it); Pdf.Num (quantity it);
                        Pdf.Num (price it); Pdf.Num (amount it)]) items))
  ∧ story !! 9
    = Some (Pdf.Table
        [ [Pdf.Str ""; Pdf.Str ""; Pdf.Str "總計:"; Pdf.of_value total];
          [Pdf.Str ""; Pdf.Str ""; Pdf.Str "已收訂金:"; Pdf.Num received];
          [Pdf.Str ""; Pdf.Str ""; Pdf.Str "餘額:"; Pdf.Num balance] ]).
Proof.
  unfold App.generate_pdf.
  destruct (build_pdf _ _) as [e|] eqn:Hbuild;
    cbn [raising mbind result_bind]; [discriminate|].
  intros [= <- <-]. by split_and!.
Qed.

(** What [create_files] of [app.py] writes when it returns, given what
    [generate] computes on the same form: the two file names, and
    unformatted numbers in both documents. *)
Lemma app_create_files_generate f data items g :
  App.generate py_float f = Ok (data, items) →
  App.create_files py_float save_workbook build_pdf f = Ok g →
  (excel_file g = "Quotation_" +:+ pd_quotation_no data +:+ ".xlsx"
   ∧ pdf_file g = "Quotation_" +:+ pd_quotation_no data +:+ ".pdf"
   ∧ save_workbook (excel_file g) (excel_doc g) = None
   ∧ build_pdf (pdf_file g) (pdf_doc g) = None)
  ∧ (∀ k it, items !! k = Some it →
       value_at (10 + k) 3 (excel_doc g) = Number (price it)
       ∧ value_at (10 + k) 4 (excel_doc g) = Number (amount it))
  ∧ value_at (10 + length items) 3 (excel_doc g) = Text "總計:"
  ∧ value_at (10 + length items) 4 (excel_doc g)
    = of_value (App.total_value items (pd_total_amount data))
  ∧ value_at (11 + length items) 3 (excel_doc g) = Text "已收訂金:"
  ∧ value_at (11 + length items) 4 (excel_doc g)
    = Number (pd_received data)
  ∧ value_at (12 + length items) 3 (excel_doc g) = Text "餘額:"
  ∧ value_at (12 + length items) 4 (excel_doc g)
    = Number (pd_balance data)
  ∧ pdf_doc g !! 8
    = Some (Pdf.Table
        ([Pdf.Str "項目"; Pdf.Str "數量"; Pdf.Str "單價"; Pdf.Str "金額"]
         :: map (λ it, [Pdf.Str (name it); Pdf.Num (quantity it);
                        Pdf.Num (price it); Pdf.Num (amount it)]) items))
  ∧ pdf_doc g !! 9
    = Some (Pdf.Table
        [ [Pdf.Str ""; Pdf.Str ""; Pdf.Str "總計:";
           Pdf.of_value (App.total_value items (pd_total_amount data))];
          [Pdf.Str ""; Pdf.Str ""; Pdf.Str "已收訂金:";
           Pdf.Num (pd_received data)];
          [Pdf.Str ""; Pdf.Str ""; Pdf.Str "餘額:";
           Pdf.Num (pd_balance data)] ]).
Proof.
  intros H Hg. rewrite create_files_generate, H in Hg.
  cbn [mbind result_bind] in Hg.
  destruct (App.generate_excel _ _ _ _ _ _ _ _ _ _ _ _ _ _)
    as [[xname ws]|] eqn:Hx; cbn [mbind result_bind] in Hg; [|discriminate].
  destruct (App.generate_pdf _ _ _ _ _ _ _ _ _ _ _ _ _ _)
    as [[pname story]|] eqn:Hp; cbn [mbind result_bind] in Hg; [|discriminate].
  injection Hg as <-. cbn [excel_file excel_doc pdf_file pdf_doc].
  apply generate_excel_cells in Hx
    as (-> & Hsave & Hit & Ht3 & Ht4 & Hr3 & Hr4 & Hb3 & Hb4).
  apply generate_pdf_story in Hp as (-> & Hbuild & Hrows & Htot).
  replace (10 + length items + 1) with (11 + length items) in * by lia.
  replace (10 + length items + 2) with (12 + length items) in * by lia.
  split_and!; done.
Qed.

(** An exception of [create_files] of [app.py] on a form that [generate]
    accepts is one that openpyxl, reportlab or the file system raised
    while a document was written. *)
Lemma app_create_files_exporters f r e :
  App.generate py_float f = Ok r →
  App.create_files py_float save_workbook build_pdf f = Raise e →
  (∃ filename ws, save_workbook filename ws = Some e)
  ∨ (∃ filename story, build_pdf filename story = Some e).
Proof.
  intros H Hg. rewrite create_files_generate, H in Hg. destruct r as [data items].
  cbn [mbind result_bind] in Hg.
  destruct (App.generate_excel _ _ _ _ _ _ _ _ _ _ _ _ _ _)
    as [[xname ws]|e1] eqn:Hx; cbn [mbind result_bind] in Hg.
  - right. clear Hx.
    destruct (App.generate_pdf _ _ _ _ _ _ _ _ _ _ _ _ _ _)
      as [[pname story]|e2] eqn:Hp; cbn [mbind result_bind] in Hg;
      [discriminate|].
    injection Hg as ->. unfold App.generate_pdf in Hp.
    destruct (build_pdf _ _) as [e3|] eqn:Hbuild in Hp;
      cbn [raising mbind result_bind] in Hp; [|discriminate].
    injection Hp as ->. eauto.
  - left. injection Hg as ->. unfold App.generate_excel in Hx.
    destruct (App.excel_items _ _ _) as [ws1 row1].
    destruct (save_workbook _ _) as [e3|] eqn:Hsave in Hx;
      cbn [raising mbind result_bind] in Hx; [|discriminate].
    injection Hx as ->. eauto.
Qed.

(** The worker's [create_files] on a form that [generate] accepts: the
    sheet and the story it builds, and whether openpyxl and reportlab
    take them. *)
Lemma worker_create_files_result f data items :
  Worker.generate py_float f = Ok (data, items) →
  ∃ ws story,
    Worker.create_files py_float save_workbook build_pdf f
    = (_ ← raising (save_workbook "Quotation.xlsx" ws);
       _ ← raising (build_pdf "Quotation.pdf" story);
       Ok (Generated "Quotation.xlsx" ws "Quotation.pdf" story))
    ∧ (∀ k it, items !! k = Some it →
         value_at (9 + k) 3 ws = Text (format_comma_2f (price it))
         ∧ value_at (9 + k) 4 ws = Text (format_comma_2f (amount it)))
    ∧ value_at (9 + length items) 3 ws = Text "TOTAL"
    ∧ value_at (9 + length items) 4 ws
      = Text (format_comma_2f (pd_total_amount data))
    ∧ value_at (10 + length items) 3 ws = Text "Received"
    ∧ value_at (10 + length items) 4 ws
      = Text ("(" +:+ format_comma_2f (pd_received data) +:+ ")")
    ∧ value_at (11 + length items) 3 ws = Text "Balance"
    ∧ value_at (11 + length items) 4 ws
      = Text (format_comma_2f (pd_balance data))
    ∧ story !! 2
      = Some (Pdf.Table
          ([Pdf.Para (PyStr "Items") "SimSunBold";
            Pdf.Para (PyStr "Units") "SimSunBold";
            Pdf.Para (PyStr "Cost Per Unit") "SimSunBold";
            Pdf.Para (PyStr "Amount") "SimSunBold"]
           :: map (λ it,
                [Pdf.Para (PyStr (name it)) "SimSun";
                 Pdf.Para (PyFloat (quantity it)) "SimSun";
                 Pdf.Para (PyStr (format_comma_2f (price it))) "SimSun";
                 Pdf.Para (PyStr (format_comma_2f (amount it))) "SimSun"])
              items))
    ∧ story !! 3
      = Some (Pdf.Table
          [ [Pdf.Str ""; Pdf.Str "TOTAL";
             Pdf.Str (format_comma_2f (pd_total_amount data))];
            [Pdf.Str ""; Pdf.Str "Received";
             Pdf.Str ("(" +:+ format_comma_2f (pd_received data) +:+ ")")];
            [Pdf.Str ""; Pdf.Str "Balance";
             Pdf.Str (format_comma_2f (pd_balance data))] ]).
Proof.
  intros H. unfold Worker.generate in H. bind_inv H. injection H as <- <-.
  change (Worker.generate_loop py_float) with (App.generate_loop py_float) in *.
  unfold Worker.create_files.
  repeat match goal with E : getitem _ f = Ok _ |- _ =>
    rewrite E; cbn [mbind result_bind]; clear E end.
  match goal with E : to_float _ _ = Ok _ |- _ =>
    rewrite E; cbn [mbind result_bind]; clear E end.
  match goal with E : App.generate_loop _ _ _ _ _ _ _ = Ok _ |- _ =>
    pose proof (worker_create_files_loop_rows py_float
      (getlist "item_name[]" f) (getlist "quantity[]" f) (getlist "price[]" f)
      (seq 0 (length (getlist "item_name[]" f))) [] 0%float) as Hw;
    rewrite E in Hw; clear E end.
  change (Spec.items_data_row <$> []) with (@nil (list Py.value)) in Hw.
  rewrite Hw. cbn [mbind result_bind]. clear Hw.
  eexists _, _. split; [reflexivity|].
  cbn [pd_total_amount pd_received pd_balance].
  match goal with |- context [foldl _ ?head (Spec.items_data_row <$> ?l)] =>
    set (HEAD := head); set (items := l) end.
  assert (Hcur : current_row HEAD = 8) by (subst HEAD; vm_compute; reflexivity).
  assert (Hkeys : ∀ r c, is_Some (cells HEAD !! (r, c)) → r ≤ 8).
  { assert (Hall : map_Forall (λ k _, k.1 ≤ 8) (cells HEAD))
      by (subst HEAD; refine (bool_decide_unpack _ _); vm_compute; exact I).
    intros r c [v Hv]. exact (Hall (r, c) v Hv). }
  assert (H81 : is_Some (cells HEAD !! (8, 1)))
    by (subst HEAD; vm_compute; eexists; reflexivity).
  clearbody HEAD.
  destruct (foldl_append_spec (Spec.items_data_row <$> items) HEAD)
    as (Hc & Hold & Hnew & Hbound).
  rewrite length_fmap, Hcur in *.
  set (W := foldl _ HEAD _) in *.
  assert (Hmax : max_row W = 8 + length items).
  { apply (max_row_eq W _ 1).
    - destruct items as [|it0 items0] using rev_ind.
      + simpl. rewrite Hold by lia. done.
      + replace (8 + length (items0 ++ [it0])) with (8 + 1 + length items0)
          by (rewrite length_app; simpl; lia).
        exists (of_value (PyStr (name it0))).
        apply (Hnew (length items0) (Spec.items_data_row it0) 0); [|done].
        rewrite list_lookup_fmap, lookup_app_r, Nat.sub_diag by lia. done.
    - intros r' c' Hs. apply Hbound in Hs; [lia|]. intros r1 c1 Hs1.
      apply Hkeys in Hs1. lia. }
  clearbody W. rewrite Hmax.
  split_and!; try (by value_at_simpl).
  - intros k it Hk. pose proof (lookup_lt_Some _ _ _ Hk) as Hlt.
    assert (Hrow : (Spec.items_data_row <$> items) !! k
      = Some (Spec.items_data_row it)) by (by rewrite list_lookup_fmap, Hk).
    pose proof (Hnew k _ 2 (PyStr (format_comma_2f (price it))) Hrow eq_refl)
      as H3.
    pose proof (Hnew k _ 3 (PyStr (format_comma_2f (amount it))) Hrow eq_refl)
      as H4.
    change (1 + 2) with 3 in H3. change (1 + 3) with 4 in H4.
    value_at_simpl. unfold value_at.
    replace (9 + k) with (8 + 1 + k) by lia. by rewrite H3, H4.
  - simpl. do 2 f_equal. by rewrite <- list_fmap_compose.
Qed.

(** What [create_files] of [_worker.py] writes when it returns, given
    what [generate] computes on the same form: the formatted results in
    both documents, the items from row 9 on, then the three totals. *)
Lemma worker_create_files_generate f data items g :
  Worker.generate py_float f = Ok (data, items) →
  Worker.create_files py_float save_workbook build_pdf f = Ok g →
  (excel_file g = "Quotation.xlsx" ∧ pdf_file g = "Quotation.pdf"
   ∧ save_workbook (excel_file g) (excel_doc g) = None
   ∧ build_pdf (pdf_file g) (pdf_doc g) = None)
  ∧ (∀ k it, items !! k = Some it →
       value_at (9 + k) 3 (excel_doc g) = Text (format_comma_2f (price it))
       ∧ value_at (9 + k) 4 (excel_doc g)
         = Text (format_comma_2f (amount it)))
  ∧ value_at (9 + length items) 3 (excel_doc g) = Text "TOTAL"
  ∧ value_at (9 + length items) 4 (excel_doc g)
    = Text (format_comma_2f (pd_total_amount data))
  ∧ value_at (10 + length items) 3 (excel_doc g) = Text "Received"
  ∧ value_at (10 + length items) 4 (excel_doc g)
    = Text ("(" +:+ format_comma_2f (pd_received data) +:+ ")")
  ∧ value_at (11 + length items) 3 (excel_doc g) = Text "Balance"
  ∧ value_at (11 + length items) 4 (excel_doc g)
    = Text (format_comma_2f (pd_balance data))
  ∧ pdf_doc g !! 2
    = Some (Pdf.Table
        ([Pdf.Para (PyStr "Items") "SimSunBold";
          Pdf.Para (PyStr "Units") "SimSunBold";
          Pdf.Para (PyStr "Cost Per Unit") "SimSunBold";
          Pdf.Para (PyStr "Amount") "SimSunBold"]
         :: map (λ it,
              [Pdf.Para (PyStr (name it)) "SimSun";
               Pdf.Para (PyFloat (quantity it)) "SimSun";
               Pdf.Para (PyStr (format_comma_2f (price it))) "SimSun";
               Pdf.Para (PyStr (format_comma_2f (amount it))) "SimSun"])
            items))
  ∧ pdf_doc g !! 3
    = Some (Pdf.Table
        [ [Pdf.Str ""; Pdf.Str "TOTAL";
           Pdf.Str (format_comma_2f (pd_total_amount data))];
          [Pdf.Str ""; Pdf.Str "Received";
           Pdf.Str ("(" +:+ format_comma_2f (pd_received data) +:+ ")")];
          [Pdf.Str ""; Pdf.Str "Balance";
           Pdf.Str (format_comma_2f (pd_balance data))] ]).
Proof.
  intros H Hg.
  destruct (worker_create_files_result f data items H)
    as (ws & story & Heq & Hcells). rewrite Heq in Hg. clear Heq.
  destruct (save_workbook _ _) as [e|] eqn:Hsave;
    cbn [raising mbind result_bind] in Hg; [discriminate|].
  destruct (build_pdf _ _) as [e|] eqn:Hbuild;
    cbn [raising mbind result_bind] in Hg; [discriminate|].
  injection Hg as <-. cbn [excel_file excel_doc pdf_file pdf_doc].
  split; [by split_and!|]. exact Hcells.
Qed.

(** An exception of the worker's [create_files] on a form that
    [generate] accepts is one that openpyxl, reportlab or the file
    system raised while a document was written. *)
Lemma worker_create_files_exporters f r e :
  Worker.generate py_float f = Ok r →
  Worker.create_files py_float save_workbook build_pdf f = Raise e →
  (∃ filename ws, save_workbook filename ws = Some e)
  ∨ (∃ filename story, build_pdf filename story = Some e).
Proof.
  intros H Hg. destruct r as [data items].
  destruct (worker_create_files_result f data items H)
    as (ws & story & Heq & _). rewrite Heq in Hg. clear Heq.
  destruct (save_workbook _ _) as [e1|] eqn:Hsave;
    cbn [raising mbind result_bind] in Hg.
  { injection Hg as ->. eauto. }
  destruct (build_pdf _ _) as [e1|] eqn:Hbuild;
    cbn [raising mbind result_bind] in Hg; [|discriminate].
  injection Hg as ->. eauto.
Qed.

(** The total handed to the exporters of [app.py] is the preview's total
    as a float, or the int [0] when there is no item, and then the
    preview's total is zero too. *)
Lemma total_value_preview f data items :
  App.generate py_float f = Ok (data, items) →
  (items ≠ [] ∧ App.total_value items (pd_total_amount data)
                 = PyFloat (pd_total_amount data))
  ∨ (items = [] ∧ App.total_value items (pd_total_amount data) = PyInt 0
     ∧ pd_total_amount data = 0%float).
Proof.
  intros H. apply generate_Ok in H as ([_ Ht] & _ & _).
  destruct items as [|it items]; [right|left]; by rewrite ?Ht.
Qed.

(** C3: on one form, the total, the received amount and the balance
    that the preview handler computes are the values both exporters
    write whenever the documents are written: in [app.py] the three
    numbers themselves, in the spreadsheet cells and in the PDF totals
    table (the total as the int 0 in both when no row has a name, where
    the preview's total is zero); in [_worker.py] their [f'{x:,.2f}']
    texts, the same in both documents. *)
Theorem C3_preview_and_documents_agree f data items :
  App.generate py_float f = Ok (data, items) →
  Worker.generate py_float f = Ok (data, items)
  ∧ (∀ g, App.create_files py_float save_workbook build_pdf f = Ok g →
       value_at (10 + length items) 4 (excel_doc g)
       = of_value (App.total_value items (pd_total_amount data))
       ∧ value_at (11 + length items) 4 (excel_doc g)
         = Number (pd_received data)
       ∧ value_at (12 + length items) 4 (excel_doc g)
         = Number (pd_balance data)
       ∧ pdf_doc g !! 9
         = Some (Pdf.Table
             [ [Pdf.Str ""; Pdf.Str ""; Pdf.Str "總計:";
                Pdf.of_value (App.total_value items (pd_total_amount data))];
               [Pdf.Str ""; Pdf.Str ""; Pdf.Str "已收訂金:";
                Pdf.Num (pd_received data)];
               [Pdf.Str ""; Pdf.Str ""; Pdf.Str "餘額:";
                Pdf.Num (pd_balance data)] ]))
  ∧ ((items ≠ [] ∧ App.total_value items (pd_total_amount data)
                    = PyFloat (pd_total_amount data))
     ∨ (items = [] ∧ App.total_value items (pd_total_amount data) = PyInt 0
        ∧ pd_total_amount data = 0%float))
  ∧ (∀ g, Worker.create_files py_float save_workbook build_pdf f = Ok g →
       value_at (9 + length items) 4 (excel_doc g)
       = Text (format_comma_2f (pd_total_amount data))
       ∧ value_at (10 + length items) 4 (excel_doc g)
         = Text ("(" +:+ format_comma_2f (pd_received data) +:+ ")")
       ∧ value_at (11 + length items) 4 (excel_doc g)
         = Text (format_comma_2f (pd_balance data))
       ∧ pdf_doc g !! 3
         = Some (Pdf.Table
             [ [Pdf.Str ""; Pdf.Str "TOTAL";
                Pdf.Str (format_comma_2f (pd_total_amount data))];
               [Pdf.Str ""; Pdf.Str "Received";
                Pdf.Str ("(" +:+ format_comma_2f (pd_received data) +:+ ")")];
               [Pdf.Str ""; Pdf.Str "Balance";
                Pdf.Str (format_comma_2f (pd_balance data))] ])).
Proof.
  intros H. split; [exact H|]. split_and!.
  - intros g Hg.
    destruct (app_create_files_generate f data items g H Hg)
      as (_ & _ & _ & Ht & _ & Hr & _ & Hb & _ & Hp).
    split_and!; done.
  - by apply (total_value_preview f).
  - intros g Hg.
    destruct (worker_create_files_generate f data items g H Hg)
      as (_ & _ & _ & Ht & _ & Hr & _ & Hb & _ & Hp).
    split_and!; done.
Qed.

(** C2: the balance is the float difference total − received, in the
    preview and, whenever they are written, in both documents of either
    entry point; nothing clamps it, so it is below zero whenever
    received exceeds the total. *)
Theorem C2_balance_is_total_minus_received f data items :
  App.generate py_float f = Ok (data, items) →
  Worker.generate py_float f = Ok (data, items)
  ∧ pd_balance data = (pd_total_amount data - pd_received data)%float
  ∧ (∀ g, App.create_files py_float save_workbook build_pdf f = Ok g →
       value_at (12 + length items) 4 (excel_doc g)
       = Number (pd_total_amount data - pd_received data)
       ∧ ∃ rows, pdf_doc g !! 9 = Some (Pdf.Table rows)
           ∧ rows !! 2
             = Some [Pdf.Str ""; Pdf.Str ""; Pdf.Str "餘額:";
                     Pdf.Num (pd_total_amount data - pd_received data)])
  ∧ (∀ g, Worker.create_files py_float save_workbook build_pdf f = Ok g →
       value_at (11 + length items) 4 (excel_doc g)
       = Text (format_comma_2f (pd_total_amount data - pd_received data))
       ∧ ∃ rows, pdf_doc g !! 3 = Some (Pdf.Table rows)
           ∧ rows !! 2
             = Some [Pdf.Str ""; Pdf.Str "Balance";
                     Pdf.Str (format_comma_2f
                                (pd_total_amount data - pd_received data))])
  ∧ ((pd_total_amount data <? pd_received data)%float = true →
     (pd_balance data <? 0)%float = true).
Proof.
  intros H. pose proof (generate_Ok py_float f data items H) as (_ & _ & Hb).
  split; [exact H|]. split; [exact Hb|]. split_and!.
  - intros g Hg.
    destruct (app_create_files_generate f data items g H Hg)
      as (_ & _ & _ & _ & _ & _ & _ & Hb4 & _ & Hp).
    rewrite <- Hb. split; [done|]. eexists. by split.
  - intros g Hg.
    destruct (worker_create_files_generate f data items g H Hg)
      as (_ & _ & _ & _ & _ & _ & _ & Hb4 & _ & Hp).
    rewrite <- Hb. split; [done|]. eexists. by split.
  - rewrite Hb. apply Binary64Facts.float_sub_negative.
Qed.



End Documents.

Lemma C2_balance_is_total_minus_received_witness :
  Worker.generate Env.plain_decimal overpaid_form
  = Ok (PreviewData "Acme" "1 Main St" "555" "a@acme.test" "Q1" "2024-01-01"
          "Bob" "2 Side St" 50 "" 45 (-5),
        [Item "Widget" 2 10 20; Item "Gadget" 1 25 25])
  ∧ (-5 = 45 - 50)%float
  ∧ (∃ g, App.create_files Env.plain_decimal Env.save_workbook Env.build_pdf
            overpaid_form = Ok g
       ∧ Xlsx.value_at 14 4 (excel_doc g) = Xlsx.Number (45 - 50)
       ∧ ∃ rows, pdf_doc g !! 9 = Some (Pdf.Table rows)
           ∧ rows !! 2
             = Some [Pdf.Str ""; Pdf.Str ""; Pdf.Str "餘額:";
                     Pdf.Num (45 - 50)])
  ∧ (∃ g, Worker.create_files Env.plain_decimal Env.save_workbook
            Env.build_pdf overpaid_form = Ok g
       ∧ Xlsx.value_at 13 4 (excel_doc g)
         = Xlsx.Text (format_comma_2f (45 - 50))
       ∧ ∃ rows, pdf_doc g !! 3 = Some (Pdf.Table rows)
           ∧ rows !! 2
             = Some [Pdf.Str ""; Pdf.Str "Balance";
                     Pdf.Str (format_comma_2f (45 - 50))])
  ∧ ((45 <? 50)%float = true → (-5 <? 0)%float = true).
Proof.
  destruct (C2_balance_is_total_minus_received Env.plain_decimal
    Env.save_workbook Env.build_pdf overpaid_form
    (PreviewData "Acme" "1 Main St" "555" "a@acme.test" "Q1" "2024-01-01"
       "Bob" "2 Side St" 50 "" 45 (-5))
    [Item "Widget" 2 10 20; Item "Gadget" 1 25 25])
    as (Hw & Hb & Happ & Hwork & Hneg); [vm_compute; reflexivity|].
  split_and!; [exact Hw|exact Hb| | |exact Hneg].
  - returned g E. by apply Happ.
  - returned g E. by apply Hwork.
Defined.

(** With 50 received against a total of 45 the balance shown is
    [-5.00]. *)
Example overpaid_balance_text : format_comma_2f (45 - 50) = "-5.00".
Proof. vm_compute. reflexivity. Qed.


(** The preview of the form without a [received] field. *)
Example no_received_preview :
  App.generate Env.plain_decimal no_received_form
  = Ok (PreviewData "Acme" "1 Main St" "555" "a@acme.test" "Q1" "2024-01-01"
          "Bob" "2 Side St" 0 "" 20 20,
        [Item "Widget" 2 10 20]).
Proof. vm_compute. reflexivity. Qed.

Lemma C3_preview_and_documents_agree_witness :
  Worker.generate Env.plain_decimal example_form
  = Ok (PreviewData "Acme" "1 Main St" "555" "a@acme.test" "Q1" "2024-01-01"
          "Bob" "2 Side St" 20 "" 45 25,
        [Item "Widget" 2 10 20; Item "Gadget" 1 25 25])
  ∧ (∃ g, App.create_files Env.plain_decimal Env.save_workbook Env.build_pdf
            example_form = Ok g
       ∧ Xlsx.value_at 12 4 (excel_doc g) = Xlsx.Number 45
       ∧ Xlsx.value_at 13 4 (excel_doc g) = Xlsx.Number 20
       ∧ Xlsx.value_at 14 4 (excel_doc g) = Xlsx.Number 25
       ∧ pdf_doc g !! 9
         = Some (Pdf.Table
             [ [Pdf.Str ""; Pdf.Str ""; Pdf.Str "總計:"; Pdf.Num 45];
               [Pdf.Str ""; Pdf.Str ""; Pdf.Str "已收訂金:"; Pdf.Num 20];
               [Pdf.Str ""; Pdf.Str ""; Pdf.Str "餘額:"; Pdf.Num 25] ]))
  ∧ (∃ g, Worker.create_files Env.plain_decimal Env.save_workbook
            Env.build_pdf example_form = Ok g
       ∧ Xlsx.value_at 11 4 (excel_doc g) = Xlsx.Text "45.00"
       ∧ Xlsx.value_at 12 4 (excel_doc g) = Xlsx.Text "(20.00)"
       ∧ Xlsx.value_at 13 4 (excel_doc g) = Xlsx.Text "25.00"
       ∧ pdf_doc g !! 3
         = Some (Pdf.Table
             [ [Pdf.Str ""; Pdf.Str "TOTAL"; Pdf.Str "45.00"];
               [Pdf.Str ""; Pdf.Str "Received"; Pdf.Str "(20.00)"];
               [Pdf.Str ""; Pdf.Str "Balance"; Pdf.Str "25.00"] ])).
Proof.
  destruct (C3_preview_and_documents_agree Env.plain_decimal Env.save_workbook
    Env.build_pdf example_form
    (PreviewData "Acme" "1 Main St" "555" "a@acme.test" "Q1" "2024-01-01"
       "Bob" "2 Side St" 20 "" 45 25)
    [Item "Widget" 2 10 20; Item "Gadget" 1 25 25])
    as (Hw & Happ & _ & Hwork); [vm_compute; reflexivity|].
  split_and!; [exact Hw| |].
  - returned g E. by apply Happ.
  - returned g E. by apply Hwork.
Defined.

(** A quotation number with a [/] names a file in a directory that is
    not there: the preview is served, and [create_files] of [app.py]
    ends in the exception of [wb.save]. The worker, with its fixed file
    names, writes both documents. *)
Example slash_in_quotation_no :
  (∃ r, App.generate Env.plain_decimal slash_form = Ok r)
  ∧ App.create_files Env.plain_decimal Env.save_workbook Env.build_pdf
      slash_form = Raise (Other "FileNotFoundError")
  ∧ ∃ g, Worker.create_files Env.plain_decimal Env.save_workbook
           Env.build_pdf slash_form = Ok g.
Proof.
  split_and!; [eexists; vm_compute; reflexivity|vm_compute; reflexivity|].
  destruct (Worker.create_files _ _ _ slash_form) as [g|e] eqn:E;
    [by exists g|vm_compute in E; discriminate E].
Qed.

(** A company name that is no markup: the spreadsheet is written, and
    both entry points end in the exception of reportlab's
    [Paragraph]. *)
Example markup_in_company_name :
  (∃ r, App.generate Env.plain_decimal markup_form = Ok r)
  ∧ App.create_files Env.plain_decimal Env.save_workbook Env.build_pdf
      markup_form = Raise ValueError
  ∧ Worker.create_files Env.plain_decimal Env.save_workbook Env.build_pdf
      markup_form = Raise ValueError.
Proof.
  split_and!; [eexists; vm_compute; reflexivity|vm_compute; reflexivity|].
  vm_compute. reflexivity.
Qed.

(** ** The record store *)

Section Store.

Import Records.

Variable json : Type.
Variable dumps : json → string.
Variable empty_list : json.
Variable bindable : Z → bool.

Abbreviation body := (Records.body json).
Abbreviation query_get := (Records.query_get bindable).
Abbreviation save_quotation :=
  (Records.save_quotation json dumps empty_list bindable).
Abbreviation get_quotation := (Records.get_quotation bindable).
Abbreviation delete_quotation := (Records.delete_quotation bindable).
Abbreviation row_of_body := (Records.row_of_body json dumps empty_list).
Abbreviation reachable := (Records.reachable json dumps empty_list bindable).

(** The eleven assignments overwrite every column. *)
Lemma assign_row_of_body (data : body) quotation :
  assign json data (dumps (default empty_list (b_items json data))) quotation
  = row_of_body data.
Proof. reflexivity. Qed.


(** The three ways a lookup can go. *)
Lemma query_get_found id db quotation :
  db !! id = Some quotation → query_get id db = Ok (Some quotation).
Proof. intros H. unfold Records.query_get. by rewrite H. Qed.

Lemma query_get_none id db :
  db !! id = None → bindable id = true → query_get id db = Ok None.
Proof. intros H Hb. unfold Records.query_get. by rewrite H, Hb. Qed.

Lemma query_get_overflow id db :
  db !! id = None → bindable id = false → query_get id db = Raise OverflowError.
Proof. intros H Hb. unfold Records.query_get. by rewrite H, Hb. Qed.

(** On a table whose keys the driver binds, the lookup is the driver's
    check of the id followed by the table's lookup. *)
Lemma query_get_bound id db :
  (∀ k, is_Some (db !! k) → bindable k = true) →
  query_get id db
  = if bindable id then Ok (db !! id) else Raise OverflowError.
Proof.
  intros Hkeys. unfold Records.query_get.
  destruct (db !! id) as [q|] eqn:E; [|done].
  by rewrite Hkeys by (by eexists).
Qed.

(** The four ways [save_quotation] can go. *)
Lemma save_quotation_create new_id db (data : body) :
  truthy (b_id json data) = false →
  save_quotation new_id db data
  = ((Saved new_id "Quotation saved successfully", 200),
     <[new_id := row_of_body data]> db).
Proof. intros H. unfold Records.save_quotation. by rewrite H. Qed.





(** The three ways [delete_quotation] can go. *)
Lemma delete_quotation_found id db quotation :
  db !! id = Some quotation →
  delete_quotation id db = ((Success, 200), delete id db).
Proof.
  intros H. unfold Records.delete_quotation.
  by rewrite (query_get_found id db quotation).
Qed.

Lemma delete_quotation_missing id db :
  db !! id = None → bindable id = true →
  delete_quotation id db = ((Error "Quotation not found", 404), db).
Proof.
  intros H Hb. unfold Records.delete_quotation. by rewrite query_get_none.
Qed.

Lemma delete_quotation_overflow id db :
  db !! id = None → bindable id = false →
  delete_quotation id db = ((ServerError OverflowError, 500), db).
Proof.
  intros H Hb. unfold Records.delete_quotation. by rewrite query_get_overflow.
Qed.





Variable date_le : relation (option string).
Context `{!RelDecision date_le}.

Lemma to_dict_id (l : list (Z * Quotation)) :
  map (λ q, to_dict q.1 q.2) l = l.
Proof. induction l as [|[i q] l IH]; simpl; [done|]. by rewrite IH. Qed.

Lemma get_quotations_listing db :
  get_quotations date_le db
  = (Dicts (merge_sort (date_desc date_le) (map_to_list db)), 200).
Proof. unfold get_quotations. by rewrite to_dict_id. Qed.

Lemma listing_elem_of db j q :
  (j, q) ∈ merge_sort (date_desc date_le) (map_to_list db) ↔ db !! j = Some q.
Proof. by rewrite merge_sort_Permutation, elem_of_map_to_list. Qed.

(** In a sorted list every element is related to the next one. *)
Lemma Sorted_adjacent {A : Type} (R : relation A) (l : list A) :
  Sorted R l → ∀ k x y, l !! k = Some x → l !! S k = Some y → R x y.
Proof.
  induction 1 as [|a l Hs IH Hhd]; intros k x y Hx Hy.
  - by rewrite lookup_nil in Hx.
  - destruct k as [|k]; simpl in *.
    + injection Hx as ->. destruct Hhd as [|b l' Hab]; simpl in Hy.
      * discriminate.
      * by injection Hy as ->.
    + by eapply IH.
Qed.


(** C6: the listing holds every stored record once, and of two adjacent
    records the first has a date not below the second's, in the order
    the database puts on the [date] column. *)
Theorem C6_listing_by_date_descending db :
  Total date_le →
  ∃ l, get_quotations date_le db = (Dicts l, 200)
    ∧ (∀ j q, (j, q) ∈ l ↔ db !! j = Some q)
    ∧ length l = size db
    ∧ ∀ k x y, l !! k = Some x → l !! S k = Some y →
        date_le (date y.2) (date x.2).
Proof.
  intros Htotal. eexists. split_and!; [apply get_quotations_listing| | |].
  - apply listing_elem_of.
  - by rewrite merge_sort_Permutation, length_map_to_list.
  - apply (Sorted_adjacent (date_desc date_le)).
    assert (Total (date_desc date_le)).
    { intros x y. unfold date_desc. destruct (Htotal (date x.2) (date y.2));
        [by right|by left]. }
    apply (Sorted_merge_sort _).
Qed.

End Store.

(** *** The store on SQLite *)

Lemma sqlite_le_total : Total Env.sqlite_le.
Proof.
  intros [x|] [y|]; simpl; auto.
  destruct (String.leb_total x y); auto.
Qed.

(** SQLite's key for a new row is positive and not in use. *)
Lemma sqlite_rowid_fresh {A : Type} (db : gmap Z A) :
  db !! Env.sqlite_rowid db = None ∧ (0 < Env.sqlite_rowid db)%Z.
Proof.
  unfold Env.sqlite_rowid.
  cut ((0 ≤ map_fold (λ k _ acc, Z.max k acc) 0 db)%Z
       ∧ ∀ i, is_Some (db !! i) →
           (i ≤ map_fold (λ k _ acc, Z.max k acc) 0 db)%Z).
  { intros [H0 Hle]. split; [|lia].
    destruct (db !! _) eqn:E; [|done].
    assert (is_Some (db !! (1 + map_fold (λ k _ acc, Z.max k acc) 0 db)%Z))
      as Hs by (by eexists).
    apply Hle in Hs. lia. }
  apply (map_fold_weak_ind (λ r (m : gmap Z A),
    (0 ≤ r)%Z ∧ ∀ i, is_Some (m !! i) → (i ≤ r)%Z)).
  - split; [done|]. intros i [x Hx]. by rewrite lookup_empty in Hx.
  - intros i x m r Hi [H0 Hle]. split; [lia|].
    intros j Hj. destruct (decide (i = j)) as [<-|Hne]; [lia|].
    rewrite lookup_insert_ne in Hj by done. apply Hle in Hj. lia.
Qed.

(** Saving with SQLite's keys keeps a table reachable. *)
Lemma sqlite_save_reachable {json : Type} (dumps : json → string)
    (empty_list : json) (bindable : Z → bool) db (data : Records.body json) :
  Records.reachable json dumps empty_list bindable db →
  Records.reachable json dumps empty_list bindable
    (Records.save_quotation json dumps empty_list bindable
       (Env.sqlite_rowid db) db data).2.
Proof.
  intros H. destruct (sqlite_rowid_fresh db) as [Hfresh Hpos].
  by apply Records.reachable_save.
Qed.

Example sqlite_rowid_example_db : Env.sqlite_rowid example_db = 2%Z.
Proof. vm_compute. reflexivity. Qed.








Lemma C6_listing_by_date_descending_witness :
  ∃ l, Records.get_quotations Env.sqlite_le two_db = (Records.Dicts l, 200)
    ∧ (∀ j q, (j, q) ∈ l ↔ two_db !! j = Some q)
    ∧ length l = size two_db
    ∧ ∀ k x y, l !! k = Some x → l !! S k = Some y →
        Env.sqlite_le (Records.date y.2) (Records.date x.2).
Proof.
  exact (C6_listing_by_date_descending Env.sqlite_le two_db sqlite_le_total).
Defined.

(** On the two-record table the record dated 2024-02-01 is listed before
    the one dated 2024-01-01. *)
Example listing_two_db :
  fst <$> match (Records.get_quotations Env.sqlite_le two_db).1 with
          | Records.Dicts l => l
          | _ => []
          end = [2%Z; 1%Z].
Proof. vm_compute. reflexivity. Qed.

(** ** The shape of formatted numbers *)

Module FmtFacts.

Lemma is_digit_digit (n : N) : (n < 10)%N → is_digit (digit n) = true.
Proof.
  intros Hn.
  assert (n = 0 ∨ n = 1 ∨ n = 2 ∨ n = 3 ∨ n = 4 ∨ n = 5 ∨ n = 6 ∨ n = 7
          ∨ n = 8 ∨ n = 9)%N as H by lia.
  repeat (destruct H as [->|H]; [reflexivity|]). by subst.
Qed.

Lemma is_digit_not_minus c : is_digit c = true → Ascii.eqb c "-"%char = false.
Proof.
  intros Hc. destruct (Ascii.eqb_spec c "-"%char) as [->|]; [|done].
  discriminate.
Qed.

Lemma uint_all_digits (d : Decimal.uint) :
  Forall (λ c, is_digit c = true)
    (list_ascii_of_string (NilEmpty.string_of_uint d)).
Proof. induction d; simpl; constructor; auto. Qed.

(** The decimal digits of a number: at least one, all of them digits. *)
Lemma digits_spec (n : N) :
  digits n ≠ [] ∧ Forall (λ c, is_digit c = true) (digits n).
Proof.
  unfold digits, NilZero.string_of_uint.
  destruct (N.to_uint n) eqn:E;
    try (split; [simpl; discriminate|rewrite <- E at 1; apply uint_all_digits]).
  split; [simpl; discriminate|]. repeat constructor.
Qed.

(** Grouped digits read as one to three digits and then groups of a
    comma and three digits. *)
Lemma lead_group3 (n : nat) :
  ∀ r tail, length r ≤ n → r ≠ [] → Forall (λ c, is_digit c = true) r →
    groups tail = true → lead (rev (group3 r) ++ tail) = true.
Proof.
  induction n as [|n IH]; intros r tail Hlen Hne Hd Ht.
  { destruct r; [done|simpl in Hlen; lia]. }
  destruct r as [|a [|b [|c [|d more]]]]; [done| | | |].
  - apply Forall_cons in Hd as [Ha _]. simpl. by rewrite Ha, Ht.
  - apply Forall_cons in Hd as [Ha Hd]. apply Forall_cons in Hd as [Hb _].
    simpl. by rewrite Ha, Hb, Ht, !orb_true_r.
  - apply Forall_cons in Hd as [Ha Hd]. apply Forall_cons in Hd as [Hb Hd].
    apply Forall_cons in Hd as [Hc _].
    simpl. by rewrite Ha, Hb, Hc, Ht, !orb_true_r.
  - apply Forall_cons in Hd as [Ha Hd]. apply Forall_cons in Hd as [Hb Hd].
    apply Forall_cons in Hd as [Hc Hd].
    change (group3 (a :: b :: c :: d :: more))
      with (a :: b :: c :: ","%char :: group3 (d :: more)).
    change (rev (a :: b :: c :: ","%char :: group3 (d :: more)))
      with ((((rev (group3 (d :: more)) ++ [","%char]) ++ [c]) ++ [b]) ++ [a]).
    rewrite <- !app_assoc. apply IH.
    + simpl in *. lia.
    + done.
    + done.
    + simpl. by rewrite Ha, Hb, Hc, Ht.
Qed.

Lemma lead_fixed2 (h : N) :
  lead (list_ascii_of_string (fixed2 h)) = true.
Proof.
  unfold fixed2. rewrite list_ascii_of_string_of_list_ascii.
  destruct (digits_spec (h / 100)) as [Hne Hd].
  apply (lead_group3 (length (rev (digits (h / 100))))); [done| | |].
  - intros Hr. apply Hne. by rewrite <- (rev_involutive (digits _)), Hr.
  - rewrite rev_alt. by apply Forall_reverse.
  - simpl. rewrite !is_digit_digit; [done| |].
    + apply N.mod_lt. lia.
    + apply N.Div0.div_lt_upper_bound.
      pose proof (N.mod_lt h 100). lia.
Qed.

Lemma lead_is_digit c l : lead (c :: l) = true → is_digit c = true.
Proof. simpl. by intros [? _]%andb_prop. Qed.

(** The [,.2f] text of a finite float has two decimals, and its digits
    before the dot are in groups of three between commas. *)
Lemma format_comma_2f_shape (x : float) :
  finite x = true → two_decimals_grouped (format_comma_2f x) = true.
Proof.
  unfold finite, format_comma_2f, two_decimals_grouped.
  destruct (Prim2SF x) as [s|s| |s m e]; try discriminate; intros _.
  - by destruct s.
  - pose proof (lead_fixed2 (hundredths m e)) as Hl.
    destruct s; simpl sign_prefix.
    + change ("-" +:+ ?t) with (String "-" t). simpl. exact Hl.
    + change ("" +:+ ?t) with t.
      destruct (list_ascii_of_string (fixed2 (hundredths m e))) as [|c l];
        [done|].
      by rewrite (is_digit_not_minus c (lead_is_digit c l Hl)).
Qed.

End FmtFacts.


(** ** Number formatting in the documents *)

(** C7 does not hold of [app.py]: on the example form its spreadsheet
    and its PDF carry the total 45.0, the received amount, the balance
    and an item's price as unformatted numbers, and not as texts with
    two decimals and thousands separators, while [_worker.py], the other
    entry point, writes the same values as [45.00], [(20.00)], [25.00]
    and [10.00] into both of its documents. *)
Theorem C7_app_writes_plain_numbers :
  (∃ g, App.create_files Env.plain_decimal Env.save_workbook Env.build_pdf
          example_form = Ok g
     ∧ Xlsx.value_at 12 4 (excel_doc g) = Xlsx.Number 45
     ∧ Xlsx.value_at 12 4 (excel_doc g) ≠ Xlsx.Text (format_comma_2f 45)
     ∧ Xlsx.value_at 10 3 (excel_doc g) = Xlsx.Number 10
     ∧ Xlsx.value_at 10 3 (excel_doc g) ≠ Xlsx.Text (format_comma_2f 10)
     ∧ pdf_doc g !! 9
       = Some (Pdf.Table
           [ [Pdf.Str ""; Pdf.Str ""; Pdf.Str "總計:"; Pdf.Num 45];
             [Pdf.Str ""; Pdf.Str ""; Pdf.Str "已收訂金:"; Pdf.Num 20];
             [Pdf.Str ""; Pdf.Str ""; Pdf.Str "餘額:"; Pdf.Num 25] ])
     ∧ pdf_doc g !! 9
       ≠ Some (Pdf.Table
           [ [Pdf.Str ""; Pdf.Str ""; Pdf.Str "總計:";
              Pdf.Str (format_comma_2f 45)];
             [Pdf.Str ""; Pdf.Str ""; Pdf.Str "已收訂金:";
              Pdf.Str (format_comma_2f 20)];
             [Pdf.Str ""; Pdf.Str ""; Pdf.Str "餘額:";
              Pdf.Str (format_comma_2f 25)] ]))
  ∧ (∃ g, Worker.create_files Env.plain_decimal Env.save_workbook
            Env.build_pdf example_form = Ok g
       ∧ Xlsx.value_at 11 4 (excel_doc g) = Xlsx.Text "45.00"
       ∧ Xlsx.value_at 12 4 (excel_doc g) = Xlsx.Text "(20.00)"
       ∧ Xlsx.value_at 13 4 (excel_doc g) = Xlsx.Text "25.00"
       ∧ Xlsx.value_at 9 3 (excel_doc g) = Xlsx.Text "10.00"
       ∧ pdf_doc g !! 3
         = Some (Pdf.Table
             [ [Pdf.Str ""; Pdf.Str "TOTAL"; Pdf.Str "45.00"];
               [Pdf.Str ""; Pdf.Str "Received"; Pdf.Str "(20.00)"];
               [Pdf.Str ""; Pdf.Str "Balance"; Pdf.Str "25.00"] ])).
Proof.
  split.
  - returned g E.
    destruct (app_create_files_generate Env.plain_decimal Env.save_workbook
      Env.build_pdf example_form
      (PreviewData "Acme" "1 Main St" "555" "a@acme.test" "Q1" "2024-01-01"
         "Bob" "2 Side St" 20 "" 45 25)
      [Item "Widget" 2 10 20; Item "Gadget" 1 25 25] g)
      as (_ & Hit & _ & Ht & _ & _ & _ & _ & _ & Hp);
      [vm_compute; reflexivity|exact E|].
    destruct (Hit 0 _ eq_refl) as [H3 _].
    assert (Ht' : Xlsx.value_at 12 4 (excel_doc g) = Xlsx.Number 45)
      by exact Ht.
    assert (H3' : Xlsx.value_at 10 3 (excel_doc g) = Xlsx.Number 10)
      by exact H3.
    split_and!; [exact Ht|by rewrite Ht'|exact H3|by rewrite H3'|exact Hp|].
    rewrite Hp. discriminate.
  - returned g E.
    destruct (worker_create_files_generate Env.plain_decimal
      Env.save_workbook Env.build_pdf example_form
      (PreviewData "Acme" "1 Main St" "555" "a@acme.test" "Q1" "2024-01-01"
         "Bob" "2 Side St" 20 "" 45 25)
      [Item "Widget" 2 10 20; Item "Gadget" 1 25 25] g)
      as (_ & Hit & _ & Ht & _ & Hr & _ & Hb & _ & Hp);
      [vm_compute; reflexivity|exact E|].
    destruct (Hit 0 _ eq_refl) as [H3 _].
    split_and!; [exact Ht|exact Hr|exact Hb|exact H3|exact Hp].
Qed.

(** In [_worker.py] every price, amount, total and balance reaches both
    documents as its [f'{x:,.2f}'] text, and received as that text in
    parentheses, the same text in the spreadsheet and in the PDF; the
    quantity alone is left a number. For a finite value the text has
    two decimals and commas between groups of three digits. *)
Theorem worker_formats_numbers (py_float : string → option float)
    (save_workbook : string → Xlsx.worksheet → option exn)
    (build_pdf : string → list Pdf.flowable → option exn)
    (f : form) (data : preview_data) (items : list item) (g : generated) :
  Worker.generate py_float f = Ok (data, items) →
  Worker.create_files py_float save_workbook build_pdf f = Ok g →
  (∀ k it, items !! k = Some it →
     Xlsx.value_at (9 + k) 3 (excel_doc g)
     = Xlsx.Text (format_comma_2f (price it))
     ∧ Xlsx.value_at (9 + k) 4 (excel_doc g)
       = Xlsx.Text (format_comma_2f (amount it))
     ∧ ∃ rows, pdf_doc g !! 2 = Some (Pdf.Table rows)
         ∧ rows !! S k
           = Some [Pdf.Para (PyStr (name it)) "SimSun";
                   Pdf.Para (PyFloat (quantity it)) "SimSun";
                   Pdf.Para (PyStr (format_comma_2f (price it))) "SimSun";
                   Pdf.Para (PyStr (format_comma_2f (amount it))) "SimSun"])
  ∧ Xlsx.value_at (9 + length items) 4 (excel_doc g)
    = Xlsx.Text (format_comma_2f (pd_total_amount data))
  ∧ Xlsx.value_at (10 + length items) 4 (excel_doc g)
    = Xlsx.Text ("(" +:+ format_comma_2f (pd_received data) +:+ ")")
  ∧ Xlsx.value_at (11 + length items) 4 (excel_doc g)
    = Xlsx.Text (format_comma_2f (pd_balance data))
  ∧ pdf_doc g !! 3
    = Some (Pdf.Table
        [ [Pdf.Str ""; Pdf.Str "TOTAL";
           Pdf.Str (format_comma_2f (pd_total_amount data))];
          [Pdf.Str ""; Pdf.Str "Received";
           Pdf.Str ("(" +:+ format_comma_2f (pd_received data) +:+ ")")];
          [Pdf.Str ""; Pdf.Str "Balance";
           Pdf.Str (format_comma_2f (pd_balance data))] ])
  ∧ (∀ x, finite x = true → two_decimals_grouped (format_comma_2f x) = true).
Proof.
  intros H Hg.
  destruct (worker_create_files_generate py_float save_workbook build_pdf f
    data items g H Hg) as (_ & Hit & _ & Ht & _ & Hr & _ & Hb & Hrows & Hp).
  split_and!; try done.
  - intros k it Hk. destruct (Hit k it Hk) as [H3 H4].
    split_and!; [done|done|]. eexists. split; [exact Hrows|].
    simpl. by rewrite list_lookup_fmap, Hk.
  - apply FmtFacts.format_comma_2f_shape.
Qed.

Lemma worker_formats_numbers_witness :
  ∃ g, Worker.create_files Env.plain_decimal Env.save_workbook Env.build_pdf
         example_form = Ok g
    ∧ Xlsx.value_at 9 3 (excel_doc g) = Xlsx.Text "10.00"
    ∧ Xlsx.value_at 10 4 (excel_doc g) = Xlsx.Text "25.00"
    ∧ Xlsx.value_at 11 4 (excel_doc g) = Xlsx.Text "45.00"
    ∧ Xlsx.value_at 12 4 (excel_doc g) = Xlsx.Text "(20.00)"
    ∧ Xlsx.value_at 13 4 (excel_doc g) = Xlsx.Text "25.00"
    ∧ two_decimals_grouped "1,234,567.50" = true.
Proof.
  returned g E.
  destruct (worker_formats_numbers Env.plain_decimal Env.save_workbook
    Env.build_pdf example_form
    (PreviewData "Acme" "1 Main St" "555" "a@acme.test" "Q1" "2024-01-01"
       "Bob" "2 Side St" 20 "" 45 25)
    [Item "Widget" 2 10 20; Item "Gadget" 1 25 25] g)
    as (Hit & Ht & Hr & Hb & _ & Hshape); [vm_compute; reflexivity|exact E|].
  destruct (Hit 0 _ eq_refl) as (H3 & _).
  destruct (Hit 1 _ eq_refl) as (_ & H4 & _).
  split_and!; [exact H3|exact H4|exact Ht|exact Hr|exact Hb|].
  exact (Hshape 1234567.5%float eq_refl).
Defined.

(** ** Errors of the form handlers *)

Section HandlerErrors.

Variable py_float : string → option float.
Variable save_workbook : string → Xlsx.worksheet → option exn.
Variable build_pdf : string → list Pdf.flowable → option exn.

(** [create_files] of [app.py] raises what [generate] raises. *)
Lemma app_create_files_raise f e :
  App.generate py_float f = Raise e →
  App.create_files py_float save_workbook build_pdf f = Raise e.
Proof. intros H. by rewrite create_files_generate, H. Qed.

(** So does [create_files] of [_worker.py]. *)
Lemma worker_create_files_raise f e :
  Worker.generate py_float f = Raise e →
  Worker.create_files py_float save_workbook build_pdf f = Raise e.
Proof.
  unfold Worker.generate, Worker.create_files.
    destruct (getitem "company_name" f); cbn [mbind result_bind];
      [|by intros [= ->]].
    destruct (getitem "company_address" f); cbn [mbind result_bind];
      [|by intros [= ->]].
    destruct (getitem "company_phone" f); cbn [mbind result_bind];
      [|by intros [= ->]].
    destruct (getitem "company_email" f); cbn [mbind result_bind];
      [|by intros [= ->]].
    destruct (getitem "quotation_no" f); cbn [mbind result_bind];
      [|by intros [= ->]].
    destruct (getitem "date" f); cbn [mbind result_bind];
      [|by intros [= ->]].
    destruct (getitem "client_name" f); cbn [mbind result_bind];
      [|by intros [= ->]].
    destruct (getitem "client_address" f); cbn [mbind result_bind];
      [|by intros [= ->]].
    destruct (to_float _ _); cbn [mbind result_bind];
      [|by intros [= ->]].
    change (Worker.generate_loop py_float) with (App.generate_loop py_float).
    pose proof (worker_create_files_loop_rows py_float
      (getlist "item_name[]" f) (getlist "quantity[]" f) (getlist "price[]" f)
      (seq 0 (length (getlist "item_name[]" f))) [] 0%float) as Hw.
    change (Spec.items_data_row <$> []) with (@nil (list Py.value)) in Hw.
    rewrite Hw.
    destruct (App.generate_loop _ _ _ _ _ _ _) as [[items t]|];
      cbn [mbind result_bind]; [discriminate|by intros [= ->]].
Qed.

(** On any form, the file creation of an entry point fails wherever its
    preview fails, with the same exception, so it returns only where the
    preview returns; where the preview returns, file creation can fail
    only with an exception of openpyxl, reportlab or the file system;
    and the two previews are the same function. *)
Theorem create_files_fails_as_generate f :
  (∀ e, App.generate py_float f = Raise e →
        App.create_files py_float save_workbook build_pdf f = Raise e)
  ∧ (∀ e, Worker.generate py_float f = Raise e →
          Worker.create_files py_float save_workbook build_pdf f = Raise e)
  ∧ (∀ g, App.create_files py_float save_workbook build_pdf f = Ok g →
          ∃ r, App.generate py_float f = Ok r)
  ∧ (∀ g, Worker.create_files py_float save_workbook build_pdf f = Ok g →
          ∃ r, Worker.generate py_float f = Ok r)
  ∧ (∀ r e, App.generate py_float f = Ok r →
       App.create_files py_float save_workbook build_pdf f = Raise e →
       (∃ filename ws, save_workbook filename ws = Some e)
       ∨ (∃ filename story, build_pdf filename story = Some e))
  ∧ (∀ r e, Worker.generate py_float f = Ok r →
       Worker.create_files py_float save_workbook build_pdf f = Raise e →
       (∃ filename ws, save_workbook filename ws = Some e)
       ∨ (∃ filename story, build_pdf filename story = Some e))
  ∧ App.generate py_float f = Worker.generate py_float f.
Proof.
  split_and!.
  - intros e. apply app_create_files_raise.
  - intros e. apply worker_create_files_raise.
  - intros g Hg. destruct (App.generate py_float f) as [r|e] eqn:E;
      [by eexists|].
    apply app_create_files_raise in E. congruence.
  - intros g Hg. destruct (Worker.generate py_float f) as [r|e] eqn:E;
      [by eexists|].
    apply worker_create_files_raise in E. congruence.
  - intros r e. apply app_create_files_exporters.
  - intros r e. apply worker_create_files_exporters.
  - reflexivity.
Qed.

Lemma getitem_head k f : getitem k f = match head (getlist k f) with
                                       | Some v => Ok v
                                       | None => Raise (BadRequestKeyError k)
                                       end.
Proof. unfold getitem. by destruct (getlist k f). Qed.

Lemma get_head k d f : get k d f = default d (head (getlist k f)).
Proof. unfold get. by destruct (getlist k f). Qed.

(** A required field that is missing is reported under its own key by
    all four handlers, when the required fields read before it are
    there: nothing after it is looked at, the numbers included. *)
Theorem missing_required_field_raises f before k after :
  Spec.required_fields = before ++ k :: after →
  Forall (λ k', getlist k' f ≠ []) before →
  getlist k f = [] →
  App.generate py_float f = Raise (BadRequestKeyError k)
  ∧ App.create_files py_float save_workbook build_pdf f = Raise (BadRequestKeyError k)
  ∧ Worker.generate py_float f = Raise (BadRequestKeyError k)
  ∧ Worker.create_files py_float save_workbook build_pdf f = Raise (BadRequestKeyError k).
Proof.
  intros Hk Hbefore Hmiss.
  assert (Hg : App.generate py_float f = Raise (BadRequestKeyError k)).
  { unfold App.generate, Spec.required_fields in *.
    repeat (destruct before as [|k0 before]; simpl in Hk;
      [ injection Hk as <- Hk;
        match type of Hmiss with getlist ?k' f = [] =>
          by rewrite (getitem_head k' f), Hmiss end
      | injection Hk as <- Hk; apply Forall_cons in Hbefore as [Hk0 Hbefore];
        apply getitem_Ok in Hk0 as [? Hv0]; rewrite Hv0;
        cbn [mbind result_bind]; clear Hv0 ]).
    by destruct before. }
  split_and!; [done| |done|].
  - by apply app_create_files_raise.
  - by apply worker_create_files_raise.
Qed.

(** With its required fields, [generate] goes on to [received] and the
    rows. *)
Lemma generate_with_required f :
  Spec.has_required f →
  ∃ cn ca cp ce qn d cln cla,
    App.generate py_float f
    = (received ← to_float py_float (Py.or (get "received" "0" f) "0");
       '(items, total_amount) ←
         App.generate_loop py_float (getlist "item_name[]" f)
           (getlist "quantity[]" f) (getlist "price[]" f)
           (seq 0 (length (getlist "item_name[]" f))) [] 0%float;
       Ok (PreviewData cn ca cp ce qn d cln cla received
             (get "deposit_info" "" f) total_amount
             (total_amount - received)%float, items)).
Proof.
  intros Hreq. unfold Spec.has_required, Spec.required_fields in Hreq.
  repeat match goal with
  | H : Forall _ (_ :: _) |- _ => apply Forall_cons in H as [?%getitem_Ok H]
  end.
  repeat match goal with H : ∃ _, _ |- _ => destruct H end.
  unfold App.generate.
  repeat match goal with H : getitem _ _ = Ok _ |- _ =>
    rewrite H; cbn [mbind result_bind]; clear H end.
  by repeat eexists.
Qed.

(** The loop stops at the first row with a name that cannot be read,
    with that row's exception. *)
Lemma generate_loop_raises names qs ps l1 i l2 items total n e :
  (∀ j nj, j ∈ l1 → names !! j = Some nj → nj ≠ EmptyString →
     Rows.row_error py_float qs ps j = None) →
  (∀ j, j ∈ l1 → is_Some (names !! j)) →
  names !! i = Some n → n ≠ EmptyString →
  Rows.row_error py_float qs ps i = Some e →
  App.generate_loop py_float names qs ps (l1 ++ i :: l2) items total = Raise e.
Proof.
  intros Hok Hin Hn Hne He. revert items total.
  induction l1 as [|j l1 IH]; intros items total; simpl.
  - rewrite (proj2 (index_Ok names i n) Hn). cbn [mbind result_bind].
    rewrite (proj2 (not_str_false n) Hne).
    unfold Rows.row_error in He. unfold index, to_float.
    destruct (qs !! i) as [q_s|]; cbn [mbind result_bind]; [|congruence].
    destruct (py_float q_s); cbn [mbind result_bind]; [|congruence].
    destruct (ps !! i) as [p_s|]; cbn [mbind result_bind]; [|congruence].
    destruct (py_float p_s); cbn [mbind result_bind]; congruence.
  - destruct (Hin j) as [nj Hnj]; [left|].
    rewrite (proj2 (index_Ok names j nj) Hnj). cbn [mbind result_bind].
    assert (IH' := IH (λ j' nj' Hj', Hok j' nj' (list_elem_of_further _ _ _ Hj'))
                      (λ j' Hj', Hin j' (list_elem_of_further _ _ _ Hj'))).
    destruct (not_str nj) eqn:Hs; [apply IH'|].
    apply not_str_false in Hs.
    pose proof (Hok j nj ltac:(left) Hnj Hs) as Hrow.
    unfold Rows.row_error in Hrow. unfold index, to_float.
    destruct (qs !! j) as [q_s|]; cbn [mbind result_bind]; [|congruence].
    destruct (py_float q_s); cbn [mbind result_bind]; [|congruence].
    destruct (ps !! j) as [p_s|]; cbn [mbind result_bind]; [|congruence].
    destruct (py_float p_s); cbn [mbind result_bind]; [|congruence].
    apply IH'.
Qed.

(** Numbers that cannot be read: with the required fields there, a
    [received] that [float()] refuses raises [ValueError] whatever the
    rows hold; otherwise the first row with a name whose quantity or
    price is missing or refused raises, [IndexError] for a missing list
    entry and [ValueError] for a refused text, in all four handlers. *)
Theorem unreadable_number_raises f :
  Spec.has_required f →
  (py_float (Py.or (get "received" "0" f) "0") = None →
     App.generate py_float f = Raise ValueError
     ∧ App.create_files py_float save_workbook build_pdf f = Raise ValueError
     ∧ Worker.generate py_float f = Raise ValueError
     ∧ Worker.create_files py_float save_workbook build_pdf f = Raise ValueError)
  ∧ (∀ i n e,
     is_Some (py_float (Py.or (get "received" "0" f) "0")) →
     getlist "item_name[]" f !! i = Some n → n ≠ EmptyString →
     (∀ j nj, j < i → getlist "item_name[]" f !! j = Some nj →
        nj ≠ EmptyString →
        Rows.row_error py_float (getlist "quantity[]" f)
          (getlist "price[]" f) j = None) →
     Rows.row_error py_float (getlist "quantity[]" f) (getlist "price[]" f) i
     = Some e →
     App.generate py_float f = Raise e
     ∧ App.create_files py_float save_workbook build_pdf f = Raise e
     ∧ Worker.generate py_float f = Raise e
     ∧ Worker.create_files py_float save_workbook build_pdf f = Raise e).
Proof.
  intros Hreq.
  destruct (generate_with_required f Hreq)
    as (cn & ca & cp & ce & qn & d & cln & cla & Hg).
  assert (Hall : ∀ e, App.generate py_float f = Raise e →
    App.generate py_float f = Raise e
    ∧ App.create_files py_float save_workbook build_pdf f = Raise e
    ∧ Worker.generate py_float f = Raise e
    ∧ Worker.create_files py_float save_workbook build_pdf f = Raise e).
  { intros e He. split_and!; [done| |done|].
    - by apply app_create_files_raise.
    - by apply worker_create_files_raise. }
  split.
  - intros Hrec. apply Hall. rewrite Hg. unfold to_float. by rewrite Hrec.
  - intros i n e [r Hrec] Hn Hne Hbefore He. apply Hall. rewrite Hg.
    unfold to_float. rewrite Hrec. cbn [mbind result_bind].
    pose proof (lookup_lt_Some _ _ _ Hn) as Hlt.
    replace (length (getlist "item_name[]" f))
      with (i + S (length (getlist "item_name[]" f) - S i)) by lia.
    rewrite seq_app. cbn [seq]. rewrite Nat.add_0_l.
    rewrite (generate_loop_raises _ _ _ _ _ _ _ _ n e); try done.
    + intros j nj Hj. apply elem_of_seq in Hj. apply Hbefore. lia.
    + intros j Hj. apply elem_of_seq in Hj. apply lookup_lt_is_Some_2. lia.
Qed.

(** The loop reads the quantity and the price of the rows with a name
    only. *)
Lemma generate_loop_ext names qs ps qs' ps' idxs items total :
  (∀ i n, i ∈ idxs → names !! i = Some n → n ≠ EmptyString →
     qs !! i = qs' !! i ∧ ps !! i = ps' !! i) →
  App.generate_loop py_float names qs ps idxs items total
  = App.generate_loop py_float names qs' ps' idxs items total.
Proof.
  revert items total. induction idxs as [|i idxs IH]; intros items total H;
    [done|].
  assert (IH' := λ items total, IH items total
    (λ j n Hj, H j n (list_elem_of_further _ _ _ Hj))).
  simpl. destruct (index names i) as [n|] eqn:En;
    cbn [mbind result_bind]; [|done].
  apply index_Ok in En. destruct (not_str n) eqn:Hs; [apply IH'|].
  apply not_str_false in Hs.
  destruct (H i n ltac:(left) En Hs) as [Hq Hp].
  assert (index qs i = index qs' i) as -> by (unfold index; by rewrite Hq).
  assert (index ps i = index ps' i) as -> by (unfold index; by rewrite Hp).
  destruct (index qs' i) as [q_s|]; cbn [mbind result_bind]; [|done].
  destruct (to_float py_float q_s); cbn [mbind result_bind]; [|done].
  destruct (index ps' i) as [p_s|]; cbn [mbind result_bind]; [|done].
  destruct (to_float py_float p_s); cbn [mbind result_bind]; [|done].
  apply IH'.
Qed.

(** The handlers read the first value of each of the ten single fields,
    every item name, and the quantity and price at the positions of the
    rows with a name, and nothing else: forms that agree on these get
    the same answer from all four handlers. *)
Theorem handlers_read_only f f' :
  (∀ k, k ∈ Spec.required_fields ++ ["received"; "deposit_info"] →
     head (getlist k f) = head (getlist k f')) →
  getlist "item_name[]" f = getlist "item_name[]" f' →
  (∀ i n, getlist "item_name[]" f !! i = Some n → n ≠ EmptyString →
     getlist "quantity[]" f !! i = getlist "quantity[]" f' !! i
     ∧ getlist "price[]" f !! i = getlist "price[]" f' !! i) →
  App.generate py_float f = App.generate py_float f'
  ∧ App.create_files py_float save_workbook build_pdf f = App.create_files py_float save_workbook build_pdf f'
  ∧ Worker.generate py_float f = Worker.generate py_float f'
  ∧ Worker.create_files py_float save_workbook build_pdf f = Worker.create_files py_float save_workbook build_pdf f'.
Proof.
  intros Hhead Hnames Hrows.
  assert (Hitem : ∀ k, k ∈ Spec.required_fields → getitem k f = getitem k f').
  { intros k Hk. rewrite !getitem_head, Hhead; [done|].
    apply elem_of_app. by left. }
  assert (Hrec : get "received" "0" f = get "received" "0" f').
  { rewrite !get_head, Hhead; [done|]. apply elem_of_app. right. left. }
  assert (Hdep : get "deposit_info" "" f = get "deposit_info" "" f').
  { rewrite !get_head, Hhead; [done|]. apply elem_of_app. right. right. left. }
  assert (Hloop : ∀ items total,
    App.generate_loop py_float (getlist "item_name[]" f)
      (getlist "quantity[]" f) (getlist "price[]" f)
      (seq 0 (length (getlist "item_name[]" f))) items total
    = App.generate_loop py_float (getlist "item_name[]" f')
      (getlist "quantity[]" f') (getlist "price[]" f')
      (seq 0 (length (getlist "item_name[]" f'))) items total).
  { intros items total. rewrite <- Hnames. apply generate_loop_ext.
    intros i n _. apply Hrows. }
  assert (Hg : App.generate py_float f = App.generate py_float f').
  { unfold App.generate.
    rewrite !Hitem, Hrec, Hdep by (apply list_elem_of_In; simpl; tauto).
    destruct_required f'.
    destruct (to_float _ _); cbn [mbind result_bind]; [|done].
    by rewrite Hloop. }
  split_and!; [done| |done|].
  - by rewrite !create_files_generate, Hg.
  - unfold Worker.create_files.
    rewrite !Hitem, Hrec, Hdep by (apply list_elem_of_In; simpl; tauto).
    destruct_required f'.
    destruct (to_float _ _); cbn [mbind result_bind]; [|done].
    pose proof (worker_create_files_loop_rows py_float
      (getlist "item_name[]" f) (getlist "quantity[]" f) (getlist "price[]" f)
      (seq 0 (length (getlist "item_name[]" f))) [] 0%float) as Hw.
    pose proof (worker_create_files_loop_rows py_float
      (getlist "item_name[]" f') (getlist "quantity[]" f')
      (getlist "price[]" f')
      (seq 0 (length (getlist "item_name[]" f'))) [] 0%float) as Hw'.
    change (Spec.items_data_row <$> []) with (@nil (list Py.value)) in Hw, Hw'.
    rewrite <- Hloop in Hw'. rewrite <- Hw in Hw'.
    by rewrite Hw'.
Qed.

(** A form with no row that has a name: no items, a total of zero and
    the balance zero minus received. [app.py] hands the total on as the
    int 0 it started as: the cell holds the integer and the PDF draws
    [0]; the worker writes [0.00]. The totals follow the header directly
    in both spreadsheets, and the items table of the PDF is its header
    alone. *)
Theorem no_named_rows_total_zero f r :
  Spec.has_required f →
  py_float (Py.or (get "received" "0" f) "0") = Some r →
  Forall (λ n, n = EmptyString) (getlist "item_name[]" f) →
  ∃ data,
    App.generate py_float f = Ok (data, [])
    ∧ Worker.generate py_float f = Ok (data, [])
    ∧ pd_total_amount data = 0%float
    ∧ pd_received data = r
    ∧ pd_balance data = (0 - r)%float
    ∧ (∀ g, App.create_files py_float save_workbook build_pdf f = Ok g →
         Xlsx.value_at 10 4 (excel_doc g) = Xlsx.Integer 0
         ∧ Xlsx.value_at 12 4 (excel_doc g) = Xlsx.Number (0 - r)
         ∧ pdf_doc g !! 8
           = Some (Pdf.Table
               [[Pdf.Str "項目"; Pdf.Str "數量"; Pdf.Str "單價";
                 Pdf.Str "金額"]])
         ∧ pdf_doc g !! 9
           = Some (Pdf.Table
               [ [Pdf.Str ""; Pdf.Str ""; Pdf.Str "總計:"; Pdf.Int 0];
                 [Pdf.Str ""; Pdf.Str ""; Pdf.Str "已收訂金:"; Pdf.Num r];
                 [Pdf.Str ""; Pdf.Str ""; Pdf.Str "餘額:";
                  Pdf.Num (0 - r)] ]))
    ∧ (∀ g, Worker.create_files py_float save_workbook build_pdf f = Ok g →
         Xlsx.value_at 9 4 (excel_doc g) = Xlsx.Text "0.00"
         ∧ Xlsx.value_at 11 4 (excel_doc g)
           = Xlsx.Text (format_comma_2f (0 - r))).
Proof.
  intros Hreq Hrec Hnames.
  assert (Hnone : Spec.named_rows (getlist "item_name[]" f) = []).
  { unfold Spec.named_rows.
    destruct (filter _ _) as [|i l] eqn:E; [done|].
    assert (Hi : i ∈ i :: l) by left. rewrite <- E in Hi.
    apply list_elem_of_filter in Hi as [Hne Hi]. apply elem_of_seq in Hi.
    destruct (lookup_lt_is_Some_2 (getlist "item_name[]" f) i) as [n Hn];
      [lia|].
    rewrite Forall_lookup in Hnames. rewrite (Hnames i n Hn) in Hn. done. }
  destruct (generate_finishes py_float f r Hreq) as (data & items & Hg & Hr);
    [|done|].
  { intros i Hi. rewrite Hnone in Hi. by apply elem_of_nil in Hi. }
  pose proof (generate_Ok py_float f data items Hg) as ([HF Ht] & _ & Hb).
  rewrite Hnone in HF. apply Forall2_nil_inv_l in HF as ->.
  simpl in Ht. exists data. rewrite Hb, Ht, Hr.
  split_and!; try done.
  - intros g Hg'.
    destruct (app_create_files_generate py_float save_workbook build_pdf f
      data [] g Hg Hg') as (_ & _ & _ & H10 & _ & _ & _ & H12 & Hrows & Htot).
    simpl in H10, H12, Htot. rewrite H10, H12, Hrows, Htot, Hb, Ht, Hr. done.
  - intros g Hg'.
    destruct (worker_create_files_generate py_float save_workbook build_pdf f
      data [] g Hg Hg') as (_ & _ & _ & H9 & _ & _ & _ & H11 & _).
    simpl in H9, H11. rewrite H9, H11, Hb, Ht, Hr. done.
Qed.

End HandlerErrors.

Lemma missing_required_field_raises_witness :
  App.generate Env.plain_decimal no_date_form
  = Raise (BadRequestKeyError "date")
  ∧ App.create_files Env.plain_decimal Env.save_workbook Env.build_pdf no_date_form
    = Raise (BadRequestKeyError "date")
  ∧ Worker.generate Env.plain_decimal no_date_form
    = Raise (BadRequestKeyError "date")
  ∧ Worker.create_files Env.plain_decimal Env.save_workbook Env.build_pdf no_date_form
    = Raise (BadRequestKeyError "date").
Proof.
  apply (missing_required_field_raises Env.plain_decimal Env.save_workbook
    Env.build_pdf no_date_form
    ["company_name"; "company_address"; "company_phone"; "company_email";
     "quotation_no"] "date" ["client_name"; "client_address"]).
  - reflexivity.
  - repeat constructor; discriminate.
  - reflexivity.
Defined.

Lemma unreadable_number_raises_witness :
  (App.generate Env.plain_decimal bad_received_form = Raise ValueError
   ∧ App.create_files Env.plain_decimal Env.save_workbook Env.build_pdf bad_received_form = Raise ValueError
   ∧ Worker.generate Env.plain_decimal bad_received_form = Raise ValueError
   ∧ Worker.create_files Env.plain_decimal Env.save_workbook Env.build_pdf bad_received_form
     = Raise ValueError)
  ∧ (App.generate Env.plain_decimal bad_quantity_form = Raise ValueError
     ∧ App.create_files Env.plain_decimal Env.save_workbook Env.build_pdf bad_quantity_form = Raise ValueError
     ∧ Worker.generate Env.plain_decimal bad_quantity_form = Raise ValueError
     ∧ Worker.create_files Env.plain_decimal Env.save_workbook Env.build_pdf bad_quantity_form
       = Raise ValueError)
  ∧ (App.generate Env.plain_decimal short_prices_form = Raise IndexError
     ∧ App.create_files Env.plain_decimal Env.save_workbook Env.build_pdf short_prices_form = Raise IndexError
     ∧ Worker.generate Env.plain_decimal short_prices_form = Raise IndexError
     ∧ Worker.create_files Env.plain_decimal Env.save_workbook Env.build_pdf short_prices_form
       = Raise IndexError).
Proof.
  split; [|split].
  - apply (unreadable_number_raises Env.plain_decimal Env.save_workbook
      Env.build_pdf bad_received_form);
      [repeat constructor; discriminate|reflexivity].
  - apply (proj2 (unreadable_number_raises Env.plain_decimal
      Env.save_workbook Env.build_pdf bad_quantity_form
      ltac:(repeat constructor; discriminate)) 1 "Gadget").
    + by eexists.
    + reflexivity.
    + discriminate.
    + intros [|j] nj Hj; [intros _ _; reflexivity|lia].
    + reflexivity.
  - apply (proj2 (unreadable_number_raises Env.plain_decimal
      Env.save_workbook Env.build_pdf short_prices_form
      ltac:(repeat constructor; discriminate)) 1 "Gadget").
    + by eexists.
    + reflexivity.
    + discriminate.
    + intros [|j] nj Hj; [intros _ _; reflexivity|lia].
    + reflexivity.
Defined.

Lemma handlers_read_only_witness :
  App.generate Env.plain_decimal example_form
  = App.generate Env.plain_decimal noisy_form
  ∧ App.create_files Env.plain_decimal Env.save_workbook Env.build_pdf example_form
    = App.create_files Env.plain_decimal Env.save_workbook Env.build_pdf noisy_form
  ∧ Worker.generate Env.plain_decimal example_form
    = Worker.generate Env.plain_decimal noisy_form
  ∧ Worker.create_files Env.plain_decimal Env.save_workbook Env.build_pdf example_form
    = Worker.create_files Env.plain_decimal Env.save_workbook Env.build_pdf noisy_form.
Proof.
  apply (handlers_read_only Env.plain_decimal Env.save_workbook Env.build_pdf
    example_form noisy_form).
  - intros k Hk.
    repeat (apply elem_of_cons in Hk as [->|Hk]; [reflexivity|]).
    by apply elem_of_nil in Hk.
  - reflexivity.
  - intros [|[|[|i]]] n Hn Hne; try discriminate; try (split; reflexivity).
    injection Hn as <-. by destruct Hne.
Defined.

Lemma no_named_rows_total_zero_witness :
  ∃ data,
    App.generate Env.plain_decimal no_items_form = Ok (data, [])
    ∧ pd_total_amount data = 0%float
    ∧ pd_balance data = (0 - 20)%float
    ∧ (∃ g, App.create_files Env.plain_decimal Env.save_workbook
              Env.build_pdf no_items_form = Ok g
         ∧ Xlsx.value_at 10 4 (excel_doc g) = Xlsx.Integer 0
         ∧ Xlsx.value_at 12 4 (excel_doc g) = Xlsx.Number (0 - 20))
    ∧ (∃ g, Worker.create_files Env.plain_decimal Env.save_workbook
              Env.build_pdf no_items_form = Ok g
         ∧ Xlsx.value_at 9 4 (excel_doc g) = Xlsx.Text "0.00"
         ∧ Xlsx.value_at 11 4 (excel_doc g)
           = Xlsx.Text (format_comma_2f (0 - 20))).
Proof.
  destruct (no_named_rows_total_zero Env.plain_decimal Env.save_workbook
    Env.build_pdf no_items_form 20)
    as (data & Hg & _ & Ht & _ & Hb & Happ & Hwork).
  - repeat constructor; discriminate.
  - reflexivity.
  - repeat constructor.
  - exists data. split_and!; [exact Hg|exact Ht|exact Hb| |].
    + returned g E. destruct (Happ g eq_refl) as (H10 & H12 & _).
      split; [exact H10|exact H12].
    + returned g E. by apply Hwork.
Defined.

(** ** The record store: how the routes compose *)

Section StoreRoutes.

Import Records.

Variable json : Type.
Variable dumps : json → string.
Variable empty_list : json.
Variable bindable : Z → bool.

Abbreviation save := (Records.save_quotation json dumps empty_list bindable).
Abbreviation row_of := (Records.row_of_body json dumps empty_list).
Abbreviation fetch := (Records.get_quotation bindable).
Abbreviation remove := (Records.delete_quotation bindable).

(** Deleting the record a save has just created gives back the table as
    it was before the save; deleting it once more changes nothing, and
    answers 404 when the driver binds the key. *)
Theorem delete_undoes_create new_id db (data : Records.body json) :
  truthy (b_id json data) = false → db !! new_id = None →
  remove new_id (save new_id db data).2 = ((Success, 200), db)
  ∧ (remove new_id (remove new_id (save new_id db data).2).2).2 = db
  ∧ (bindable new_id = true →
     remove new_id (remove new_id (save new_id db data).2).2
     = ((Error "Quotation not found", 404), db)).
Proof.
  intros Hid Hfresh. rewrite save_quotation_create by done. cbn [snd].
  assert (Hdel : remove new_id (<[new_id := row_of data]> db)
                 = ((Success, 200), db)).
  { rewrite (delete_quotation_found _ _ _ (row_of data))
      by apply lookup_insert_eq.
    by rewrite delete_insert_id. }
  rewrite Hdel. cbn [snd]. split_and!; [done| |].
  - destruct (bindable new_id) eqn:Hb.
    + by rewrite delete_quotation_missing.
    + by rewrite delete_quotation_overflow.
  - intros Hb. by apply delete_quotation_missing.
Qed.


(** Every answer of a save or a delete has status 200, 404 or 500; any
    answer but 200 leaves the table as it was; a save never removes an
    id and a delete never adds or alters a record. *)
Theorem store_answers new_id db (data : Records.body json) id :
  ((save new_id db data).1.2 = 200 ∨ (save new_id db data).1.2 = 404
   ∨ (save new_id db data).1.2 = 500)
  ∧ ((save new_id db data).1.2 ≠ 200 → (save new_id db data).2 = db)
  ∧ ((save new_id db data).1.2 = 404 →
     (save new_id db data).1.1 = Failure "Quotation not found")
  ∧ dom db ⊆ dom (save new_id db data).2
  ∧ ((remove id db).1.2 = 200 ∨ (remove id db).1.2 = 404
     ∨ (remove id db).1.2 = 500)
  ∧ ((remove id db).1.2 ≠ 200 → (remove id db).2 = db)
  ∧ (remove id db).2 ⊆ db.
Proof.
  assert (Hsave :
    ((save new_id db data).1.2 = 200 ∨ (save new_id db data).1.2 = 404
     ∨ (save new_id db data).1.2 = 500)
    ∧ ((save new_id db data).1.2 ≠ 200 → (save new_id db data).2 = db)
    ∧ ((save new_id db data).1.2 = 404 →
       (save new_id db data).1.1 = Failure "Quotation not found")
    ∧ dom db ⊆ dom (save new_id db data).2).
  { unfold Records.save_quotation, Records.query_get.
    destruct (truthy (b_id json data));
      [destruct (db !! _); [|destruct (bindable _)]|]; cbn [fst snd].
    - split_and!; [by left|done|discriminate|apply dom_insert_subseteq].
    - split_and!; [right; by left|done|done|done].
    - split_and!; [right; by right|done|discriminate|done].
    - split_and!; [by left|done|discriminate|apply dom_insert_subseteq]. }
  destruct Hsave as (? & ? & ? & ?). split_and!; try done.
  - unfold Records.delete_quotation, Records.query_get.
    destruct (db !! id); [by left|destruct (bindable id)];
      [right; by left|right; by right].
  - unfold Records.delete_quotation, Records.query_get.
    destruct (db !! id); [done|by destruct (bindable id)].
  - unfold Records.delete_quotation, Records.query_get.
    destruct (db !! id); [apply delete_subseteq|by destruct (bindable id)].
Qed.

Variable date_le : relation (option string).
Context `{!RelDecision date_le}.

(** The listing and the fetch agree: a record is listed exactly when a
    fetch of its id answers with it, no id is listed twice, and the
    fetch of an id that is not listed answers 404, or 500 when the
    driver cannot bind the id. *)
Theorem listing_agrees_with_fetch db :
  ∃ l, get_quotations date_le db = (Dicts l, 200)
    ∧ (∀ j q, (j, q) ∈ l ↔ fetch j db = (Dict (to_dict j q), 200))
    ∧ (∀ j, j ∉ l.*1
         ↔ fetch j db
           = if bindable j then (Error "Quotation not found", 404)
             else (ServerError OverflowError, 500))
    ∧ NoDup (l.*1).
Proof.
  eexists. split; [apply get_quotations_listing|].
  assert (Hin : ∀ j, j ∈ (merge_sort (date_desc date_le) (map_to_list db)).*1
                     ↔ is_Some (db !! j)).
  { intros j. rewrite list_elem_of_fmap. split.
    - intros ([j' q] & -> & Hq). apply listing_elem_of in Hq. by eexists.
    - intros [q Hq]. exists (j, q). split; [done|]. by apply listing_elem_of. }
  split_and!.
  - intros j q. rewrite listing_elem_of.
    unfold Records.get_quotation, Records.query_get, to_dict.
    destruct (db !! j) as [q'|]; [split; intros [=]; by subst|].
    split; [done|]. by destruct (bindable j).
  - intros j. rewrite Hin. unfold Records.get_quotation, Records.query_get.
    destruct (db !! j) as [q'|]; split; intros H.
    + destruct H. by eexists.
    + by destruct (bindable j).
    + by destruct (bindable j).
    + by intros [? ?].
  - rewrite merge_sort_Permutation. apply NoDup_fst_map_to_list.
Qed.

End StoreRoutes.

Lemma delete_undoes_create_witness :
  Records.delete_quotation Env.sqlite_bindable 2
    (Records.save_quotation string (λ j, j) "[]" Env.sqlite_bindable 2
       example_db example_body).2
  = ((Records.Success, 200), example_db)
  ∧ Records.delete_quotation Env.sqlite_bindable 2
      (Records.delete_quotation Env.sqlite_bindable 2
         (Records.save_quotation string (λ j, j) "[]" Env.sqlite_bindable 2
            example_db example_body).2).2
    = ((Records.Error "Quotation not found", 404), example_db).
Proof.
  destruct (delete_undoes_create string (λ j, j) "[]" Env.sqlite_bindable 2
    example_db example_body) as (Hdel & _ & Hagain); [reflexivity..|].
  split; [exact Hdel|]. exact (Hagain eq_refl).
Defined.


(** An update whose body carries nothing but the id blanks every column
    and stores the dump of the empty list as the items. *)
Example bare_update_blanks_row :
  (Records.save_quotation string (λ j, j) "[]" Env.sqlite_bindable 2
     example_db
     (Records.Body string (Some 1%Z) None None None None None None None
        None None None None)).2 !! 1%Z
  = Some (Records.Row None None None None None None None None (Some "[]")
            None None).
Proof. vm_compute. reflexivity. Qed.

(** ** The layout of the spreadsheet of [app.py] *)

Module Layout.

Import Xlsx.





End Layout.

Import Layout.

Section SheetLayout.

Import Xlsx.

Variable save_workbook : string → worksheet → option exn.


End SheetLayout.


(** ** The database URL *)

Module ConfigFacts.

Import Config.

Lemma prefix_app (p s : string) : String.prefix p (p +:+ s) = true.
Proof.
  induction p as [|a p IH]; simpl; [by destruct s|].
  by destruct (ascii_dec a a).
Qed.

Lemma replace_first_prefix (old new s : string) :
  String.prefix old s = true →
  replace_first old new s = new +:+ skip (String.length old) s.
Proof. intros H. destruct s; cbn [replace_first]; by rewrite H. Qed.

End ConfigFacts.

(** The database URL is the environment's, or the SQLite file's when
    the variable is not set, with one change: a URL that starts with
    [postgres://] starts with [postgresql://] instead and is the same
    after that, also where [postgres://] occurs in it again. The result
    never starts with [postgres://], and configuring it again changes
    nothing. *)
Theorem database_url_scheme (env_DATABASE_URL : option string)
    (default_db_path rest : string) :
  let url := default ("sqlite:///" +:+ default_db_path) env_DATABASE_URL in
  Config.database_url env_DATABASE_URL default_db_path
  = (if String.prefix "postgres://" url
     then "postgresql://" +:+ Config.skip 11 url else url)
  ∧ Config.database_url (Some ("postgres://" +:+ rest)) default_db_path
    = "postgresql://" +:+ rest
  ∧ Config.database_url None default_db_path = "sqlite:///" +:+ default_db_path
  ∧ String.prefix "postgres://"
      (Config.database_url env_DATABASE_URL default_db_path) = false
  ∧ Config.database_url
      (Some (Config.database_url env_DATABASE_URL default_db_path))
      default_db_path
    = Config.database_url env_DATABASE_URL default_db_path.
Proof.
  intros url.
  assert (Hform : ∀ u,
    Config.database_url (Some u) default_db_path
    = if String.prefix "postgres://" u
      then "postgresql://" +:+ Config.skip 11 u else u).
  { intros u. unfold Config.database_url. cbn [default from_option id].
    destruct (String.prefix "postgres://" u) eqn:Hp.
    - rewrite ConfigFacts.replace_first_prefix by done.
      by destruct u.
    - by rewrite andb_false_r. }
  assert (Hurl : Config.database_url env_DATABASE_URL default_db_path
                 = Config.database_url (Some url) default_db_path)
    by (by destruct env_DATABASE_URL).
  assert (Hno : String.prefix "postgres://"
                  (Config.database_url (Some url) default_db_path) = false).
  { rewrite Hform. by destruct (String.prefix "postgres://" url) eqn:Hp. }
  split_and!.
  - by rewrite Hurl, Hform.
  - by rewrite Hform, (ConfigFacts.prefix_app "postgres://" rest).
  - done.
  - by rewrite Hurl.
  - rewrite Hurl, (Hform (Config.database_url _ _)). by rewrite Hno.
Qed.

(** A later [postgres://] in the URL stays as it is. *)
Example database_url_examples :
  Config.database_url (Some "postgres://u:p@host/db?next=postgres://x") "q.db"
  = "postgresql://u:p@host/db?next=postgres://x"
  ∧ Config.database_url (Some "mysql://host/postgres://") "q.db"
    = "mysql://host/postgres://"
  ∧ Config.database_url (Some "") "q.db" = ""
  ∧ Config.database_url None "/tmp/instance/quotations.db"
    = "sqlite:////tmp/instance/quotations.db".
Proof. by split_and!. Qed.
